(** * VTU result extractor: a shallow embedding of [resultextractor.py]

    The development follows the source file top-down:
    - [PyStr]    Python [str] values as lists of Unicode code points, with the
                 methods the extractor calls ([replace], [strip], [split],
                 [isdigit], [in]);
    - [Re]       the fragment of Python's backtracking [re] engine the three
                 patterns of the extractor live in;
    - [Extract]  [extract_data_from_pdf] (lines 15-80) and the upload loop of
                 the driver (lines 112-124), in an exception monad;
    - [Report]   [to_excel] (lines 82-91) and the rest of the upload handler
                 (lines 110-111, 129-149);
    - the vocabulary of the properties and the sample inputs;
    - the properties of the extraction pipeline, component by component. *)

From Stdlib Require Import List NArith Arith Bool Lia String Ascii.
From Stdlib Require Import DecimalString Permutation.
Import ListNotations.

(* ===================================================================== *)
(** ** Python strings *)
(* ===================================================================== *)

Module PyStr.

(** A Python [str] is a sequence of Unicode code points. *)
Definition char := N.
Definition str := list char.

(** String literals of the source, written as Rocq strings (one code point
    per character; the literals of the source are all ASCII). *)
Definition py (s : string) : str :=
  List.map N_of_ascii (list_ascii_of_string s).

Definition in_range (lo hi : N) (c : char) : bool :=
  ((lo <=? c) && (c <=? hi))%N.

Definition in_ranges (tbl : list (N * N)) (c : char) : bool :=
  existsb (fun r => in_range (fst r) (snd r) c) tbl.

(** [Py_UNICODE_ISSPACE]: the code points for which [str.isspace] holds; it
    is also what [\s] matches in a [str] pattern, and what [str.strip()] and
    [str.split()] treat as whitespace. *)
Definition whitespace_table : list (N * N) :=
  [ (9, 13); (28, 32); (133, 133); (160, 160); (5760, 5760); (8192, 8202);
    (8232, 8233); (8239, 8239); (8287, 8287); (12288, 12288) ]%N.

Definition Py_UNICODE_ISSPACE (c : char) : bool := in_ranges whitespace_table c.

(** [Py_UNICODE_ISDIGIT]: the code points with Numeric_Type Digit or Decimal
    (Unicode 14.0, CPython 3.11). *)
Definition digit_table : list (N * N) :=
  [ (48, 57); (178, 179); (185, 185); (1632, 1641); (1776, 1785);
    (1984, 1993); (2406, 2415); (2534, 2543); (2662, 2671); (2790, 2799);
    (2918, 2927); (3046, 3055); (3174, 3183); (3302, 3311); (3430, 3439);
    (3558, 3567); (3664, 3673); (3792, 3801); (3872, 3881); (4160, 4169);
    (4240, 4249); (4969, 4977); (6112, 6121); (6160, 6169); (6470, 6479);
    (6608, 6618); (6784, 6793); (6800, 6809); (6992, 7001); (7088, 7097);
    (7232, 7241); (7248, 7257); (8304, 8304); (8308, 8313); (8320, 8329);
    (9312, 9320); (9332, 9340); (9352, 9360); (9450, 9450); (9461, 9469);
    (9471, 9471); (10102, 10110); (10112, 10120); (10122, 10130);
    (42528, 42537); (43216, 43225); (43264, 43273); (43472, 43481);
    (43504, 43513); (43600, 43609); (44016, 44025); (65296, 65305);
    (66720, 66729); (68160, 68163); (68912, 68921); (69216, 69224);
    (69714, 69722); (69734, 69743); (69872, 69881); (69942, 69951);
    (70096, 70105); (70384, 70393); (70736, 70745); (70864, 70873);
    (71248, 71257); (71360, 71369); (71472, 71481); (71904, 71913);
    (72016, 72025); (72784, 72793); (73040, 73049); (73120, 73129);
    (92768, 92777); (92864, 92873); (93008, 93017); (120782, 120831);
    (123200, 123209); (123632, 123641); (125264, 125273); (127232, 127242);
    (130032, 130041) ]%N.

Definition Py_UNICODE_ISDIGIT (c : char) : bool := in_ranges digit_table c.

(** [s.isdigit()]: every character is a digit and there is at least one. *)
Definition isdigit (s : str) : bool :=
  match s with
  | [] => false
  | _ => forallb Py_UNICODE_ISDIGIT s
  end.

(** [c in s] for a one-character [c]. *)
Definition contains (c : char) (s : str) : bool := existsb (N.eqb c) s.

(** [s.replace(old, new)] for one-character [old] and [new]. *)
Definition replace (old new : char) (s : str) : str :=
  List.map (fun c => if N.eqb c old then new else c) s.

Fixpoint lstrip (s : str) : str :=
  match s with
  | [] => []
  | c :: s' => if Py_UNICODE_ISSPACE c then lstrip s' else s
  end.

Definition rstrip (s : str) : str := rev (lstrip (rev s)).

(** [s.strip()]: whitespace removed at both ends. *)
Definition strip (s : str) : str := rstrip (lstrip s).

(** [s.split()]: the maximal runs of non-whitespace characters, in order.
    [cur] is the current token, reversed. *)
Fixpoint split_from (cur : str) (s : str) : list str :=
  match s with
  | [] => match cur with [] => [] | _ => [rev cur] end
  | c :: s' =>
      if Py_UNICODE_ISSPACE c
      then match cur with
           | [] => split_from [] s'
           | _ => rev cur :: split_from [] s'
           end
      else split_from (c :: cur) s'
  end.

Definition split (s : str) : list str := split_from [] s.

(** Truthiness of a [str]: non-empty. *)
Definition truthy (s : str) : bool :=
  match s with [] => false | _ => true end.

Definition SPACE : char := 32%N.
Definition NEWLINE : char := 10%N.
Definition TAB : char := 9%N.

End PyStr.

Import PyStr.

(* ===================================================================== *)
(** ** The regular expressions of the extractor *)
(* ===================================================================== *)

Module Re.

(** The patterns of the source are sequences of literal characters and of
    greedy repetitions of one character class ([\s*], [[:,-]?], [[0-9A-Z]+],
    [[A-Za-z\s]+], [[A-Z0-9]{5,}]), at most one of them inside the capturing
    group, with an optional [^] anchor. *)
Inductive node :=
| Bol                                   (* [^], no MULTILINE flag *)
| Lit (c : char)                        (* a literal character *)
| Rep (cap : bool) (cls : char -> bool) (lo : nat) (hi : option nat).
                                        (* greedy [cls{lo,hi}]; [cap]: it is group 1 *)

Definition pattern := list node.

(** A match object: the span of the match and [group(1)], which is [None]
    when the group took no part in the match. *)
Record Match := { m_start : nat; m_end : nat; group1 : option str }.

(** The number of leading characters of [s] that are in [cls], at most [hi]. *)
Fixpoint span (cls : char -> bool) (hi : option nat) (s : str) : nat :=
  match hi with
  | Some 0 => 0
  | _ =>
      match s with
      | c :: s' => if cls c then S (span cls (option_map pred hi) s') else 0
      | [] => 0
      end
  end.

(** Greedy repetition backtracks: the continuation is tried with [k]
    repetitions, then [k - 1], down to [lo]. *)
Fixpoint backoff {R : Type} (lo k : nat) (cont : nat -> option R) : option R :=
  match cont k with
  | Some r => Some r
  | None =>
      match k with
      | 0 => None
      | S k' => if lo <=? k' then backoff lo k' cont else None
      end
  end.

(** [exec p pos s g]: match [p] against [s], the part of the subject that
    starts at offset [pos]; [g] is group 1 so far.  The result is the end
    offset of the first match in backtracking order, and group 1. *)
Fixpoint exec (p : pattern) (pos : nat) (s : str) (g : option str)
  : option (nat * option str) :=
  match p with
  | [] => Some (pos, g)
  | Bol :: p' => if pos =? 0 then exec p' pos s g else None
  | Lit c :: p' =>
      match s with
      | c' :: s' => if N.eqb c' c then exec p' (S pos) s' g else None
      | [] => None
      end
  | Rep cap cls lo hi :: p' =>
      let n := span cls hi s in
      if n <? lo then None
      else backoff lo n (fun k =>
             exec p' (pos + k) (skipn k s)
                  (if cap then Some (firstn k s) else g))
  end.

Definition match_at (p : pattern) (pos : nat) (s : str) : option Match :=
  match exec p pos s None with
  | Some (e, g) => Some {| m_start := pos; m_end := e; group1 := g |}
  | None => None
  end.

(** [re.match(p, s)]: a match that starts at offset 0. *)
Definition re_match (p : pattern) (s : str) : option Match := match_at p 0 s.

(** [re.search(p, s)]: the match at the first offset that has one. *)
Fixpoint search_from (p : pattern) (pos : nat) (s : str) : option Match :=
  match match_at p pos s with
  | Some m => Some m
  | None =>
      match s with
      | [] => None
      | _ :: s' => search_from p (S pos) s'
      end
  end.

Definition re_search (p : pattern) (s : str) : option Match := search_from p 0 s.

Definition lits (s : str) : pattern := List.map Lit s.

(** Character classes. *)
Definition cls_space : char -> bool := Py_UNICODE_ISSPACE.           (* \s *)
Definition cls_sep (c : char) : bool :=                              (* [:,-] *)
  (N.eqb c 58 || N.eqb c 44 || N.eqb c 45)%N.
Definition cls_upper_digit (c : char) : bool :=                      (* [0-9A-Z], [A-Z0-9] *)
  in_range 48 57 c || in_range 65 90 c.
Definition cls_alpha_space (c : char) : bool :=                      (* [A-Za-z\s] *)
  in_range 65 90 c || in_range 97 122 c || Py_UNICODE_ISSPACE c.

(** [\s*[:,-]?\s*], the optional separator after a label. *)
Definition separator : pattern :=
  [ Rep false cls_space 0 None; Rep false cls_sep 0 (Some 1);
    Rep false cls_space 0 None ].

Definition usn_label : str := py "University Seat Number".
Definition name_label : str := py "Student Name".

(** [r"University Seat Number\s*[:,-]?\s*([0-9A-Z]+)"] *)
Definition usn_pattern : pattern :=
  lits usn_label ++ separator ++ [ Rep true cls_upper_digit 1 None ].

(** [r"Student Name\s*[:,-]?\s*([A-Za-z\s]+)"] *)
Definition name_pattern : pattern :=
  lits name_label ++ separator ++ [ Rep true cls_alpha_space 1 None ].

(** [r'^[A-Z0-9]{5,}'] *)
Definition code_pattern : pattern := [ Bol; Rep false cls_upper_digit 5 None ].

End Re.

Import Re.

(* ===================================================================== *)
(** ** Exceptions *)
(* ===================================================================== *)

(** The instances of [Exception] that can occur: the two the extractor's own
    code could raise, and whatever the PDF decoder raises (with its message). *)
Inductive exn :=
| IndexError
| AttributeError
| DecodeError (msg : str).

(** [str(e)] *)
Definition exn_str (e : exn) : str :=
  match e with
  | IndexError => py "list index out of range"
  | AttributeError => py "'NoneType' object has no attribute 'strip'"
  | DecodeError msg => msg
  end.

Inductive outcome (A : Type) :=
| Ok (a : A)
| Raise (e : exn).
Arguments Ok {A} a.
Arguments Raise {A} e.

Definition bind {A B} (c : outcome A) (k : A -> outcome B) : outcome B :=
  match c with
  | Ok a => k a
  | Raise e => Raise e
  end.

Notation "x <- c ;; k" := (bind c (fun x => k))
  (at level 61, c at next level, right associativity).

(** [try: body / except Exception as e: handler e] *)
Definition try_except {A} (body : outcome A) (handler : exn -> outcome A)
  : outcome A :=
  match body with
  | Ok a => Ok a
  | Raise e => handler e
  end.

(** A [for] loop whose body updates [acc] and may raise. *)
Fixpoint for_each {A B} (body : A -> B -> outcome A) (acc : A) (l : list B)
  : outcome A :=
  match l with
  | [] => Ok acc
  | x :: l' => acc' <- body acc x ;; for_each body acc' l'
  end.

(** [l[i]] *)
Definition getitem {A} (l : list A) (i : nat) : outcome A :=
  match nth_error l i with
  | Some a => Ok a
  | None => Raise IndexError
  end.

(* ===================================================================== *)
(** ** The extractor *)
(* ===================================================================== *)

Module Extract.

(** A cell of a table of [page.extract_tables()]: a [str] or [None]. *)
Definition cell := option str.
Definition row := list cell.
Definition table := list row.

(** A page of the opened PDF; either method may raise while decoding. *)
Record Page := {
  extract_text : outcome str;
  extract_tables : outcome (list table)
}.

(** An uploaded file: its name and what [pdfplumber.open] makes of it. *)
Record UploadedFile := {
  name : str;
  pdfplumber_open : outcome (list Page)
}.

(** The dictionary appended to [extracted_data], by key. *)
Record ResultRecord := {
  USN : str;
  Student_Name : str;
  Subject_Code : str;
  Subject_Name : str;
  Internal : str;
  External : str;
  Total : str;
  Result : str;
  Source_File : str
}.

(** [m.group(1).strip() if m else "Unknown"] (lines 35-36) *)
Definition group1_or_unknown (m : option Match) : outcome str :=
  match m with
  | Some mt =>
      match group1 mt with
      | Some g => Ok (strip g)
      | None => Raise AttributeError
      end
  | None => Ok (py "Unknown")
  end.

Definition resolve_usn (text : str) : outcome str :=
  group1_or_unknown (re_search usn_pattern text).

Definition resolve_name (text : str) : outcome str :=
  group1_or_unknown (re_search name_pattern text).

(** [str(item).replace('\n', ' ').strip() if item else ''] (line 44) *)
Definition clean_cell (item : cell) : str :=
  match item with
  | Some s => if truthy s then strip (replace NEWLINE SPACE s) else []
  | None => []
  end.

(** [len(clean_row) >= 6 and re.match(r'^[A-Z0-9]{5,}', clean_row[0])]
    (line 49); [and] evaluates its right operand only when the left holds. *)
Definition is_result_row (clean_row : list str) : outcome bool :=
  if 6 <=? List.length clean_row
  then c0 <- getitem clean_row 0 ;;
       Ok (match re_match code_pattern c0 with Some _ => true | None => false end)
  else Ok false.

(** [len(parts) == 2 and parts[0].isdigit() and parts[1].isdigit()] (line 61) *)
Definition two_numbers (parts : list str) : outcome bool :=
  if List.length parts =? 2
  then p0 <- getitem parts 0 ;;
       if isdigit p0
       then p1 <- getitem parts 1 ;; Ok (isdigit p1)
       else Ok false
  else Ok false.

(** The repair of merged marks (lines 58-63): the final values of
    [internal] and [external]. *)
Definition fix_merged_marks (internal external : str) : outcome (str * str) :=
  if negb (truthy external) && contains SPACE internal
  then let parts := split internal in
       ok <- two_numbers parts ;;
       if ok
       then p0 <- getitem parts 0 ;;
            p1 <- getitem parts 1 ;;
            Ok (p0, p1)
       else Ok (internal, external)
  else Ok (internal, external).

(** The body of [for row in table] (lines 43-75). *)
Definition process_row (usn name_ file_name : str)
    (extracted_data : list ResultRecord) (r : row)
  : outcome (list ResultRecord) :=
  let clean_row := List.map clean_cell r in
  qualifies <- is_result_row clean_row ;;
  if qualifies
  then sub_code <- getitem clean_row 0 ;;
       sub_name <- getitem clean_row 1 ;;
       internal <- getitem clean_row 2 ;;
       external <- getitem clean_row 3 ;;
       total <- getitem clean_row 4 ;;
       result <- getitem clean_row 5 ;;
       marks <- fix_merged_marks internal external ;;
       Ok (extracted_data ++
           [ {| USN := usn; Student_Name := name_;
                Subject_Code := sub_code; Subject_Name := sub_name;
                Internal := fst marks; External := snd marks;
                Total := total; Result := result;
                Source_File := file_name |} ])
  else Ok extracted_data.

(** The body of [for page in pdf.pages] (lines 25-75). *)
Definition process_page (file_name : str)
    (extracted_data : list ResultRecord) (page : Page)
  : outcome (list ResultRecord) :=
  text <- extract_text page ;;
  usn <- resolve_usn text ;;
  name_ <- resolve_name text ;;
  tables <- extract_tables page ;;
  for_each (fun acc (t : table) =>
              for_each (process_row usn name_ file_name) acc t)
           extracted_data tables.

(** The body of the [try] (lines 23-75), with [extracted_data = []]. *)
Definition try_body (uploaded_file : UploadedFile)
  : outcome (list ResultRecord) :=
  pages <- pdfplumber_open uploaded_file ;;
  for_each (process_page (name uploaded_file)) [] pages.

(** What the user interface is told: [st.error] and [status_text.text].
    (The progress bar takes a floating-point fraction and is left out.) *)
Inductive ui_event :=
| St_error (msg : str)
| Status_text (msg : str).

(** [f"Error processing {uploaded_file.name}: {e}"] *)
Definition error_message (uploaded_file : UploadedFile) (e : exn) : str :=
  py "Error processing " ++ name uploaded_file ++ py ": " ++ exn_str e.

(** [extract_data_from_pdf] (lines 15-80): the returned list and the
    events shown. *)
Definition extract_data_from_pdf (uploaded_file : UploadedFile)
  : outcome (list ResultRecord * list ui_event) :=
  try_except
    (extracted_data <- try_body uploaded_file ;; Ok (extracted_data, []))
    (fun e => Ok ([], [St_error (error_message uploaded_file e)])).

(** [all_results.extend(data)] over the batches, from [all_results = []]. *)
Definition aggregate (batches : list (list ResultRecord)) : list ResultRecord :=
  fold_left (fun all_results data => all_results ++ data) batches [].

(** The upload loop (lines 112-129): [all_results] and the events shown. *)
Definition process_file (st : list ResultRecord * list ui_event)
    (pdf_file : UploadedFile) : outcome (list ResultRecord * list ui_event) :=
  let '(all_results, ui) := st in
  let ui := ui ++ [Status_text (py "Processing " ++ name pdf_file ++ py "...")] in
  res <- extract_data_from_pdf pdf_file ;;
  Ok (all_results ++ fst res, ui ++ snd res).

Definition process_files (uploaded_files : list UploadedFile)
  : outcome (list ResultRecord * list ui_event) :=
  st <- for_each process_file ([], []) uploaded_files ;;
  Ok (fst st, snd st ++ [Status_text (py "Processing Complete!")]).

End Extract.

Import Extract.

(* ===================================================================== *)
(** ** The report of the upload handler *)
(* ===================================================================== *)

Module Report.

(** A [pandas.DataFrame] of strings: its column labels and its rows. *)
Record DataFrame := {
  columns : list str;
  values : list (list str)
}.

(** The keys of the dictionary of lines 65-75, in insertion order. *)
Definition record_keys : list str :=
  [ py "USN"; py "Student Name"; py "Subject Code"; py "Subject Name";
    py "Internal"; py "External"; py "Total"; py "Result"; py "Source File" ].

(** Its values, in the same order. *)
Definition record_values (rec : ResultRecord) : list str :=
  [ USN rec; Student_Name rec; Subject_Code rec; Subject_Name rec;
    Internal rec; External rec; Total rec; Result rec; Source_File rec ].

(** [pd.DataFrame(all_results)] for a list of dictionaries with the keys
    [record_keys]: a column per key, in key order, and a row per dictionary,
    in list order; no columns for the empty list. *)
Definition pd_DataFrame (all_results : list ResultRecord) : DataFrame :=
  {| columns := match all_results with [] => [] | _ => record_keys end;
     values := List.map record_values all_results |}.

(** [len(df)]: the number of rows. *)
Definition len (df : DataFrame) : nat := List.length (values df).

(** [f"{n}"] for a non-negative [int]: its decimal digits. *)
Definition str_of_nat (n : nat) : str :=
  py (NilEmpty.string_of_uint (Nat.to_uint n)).

(** What the page shows at the end of the handler. *)
Inductive widget :=
| St_button (label : str)
| St_success (msg : str)
| St_warning (msg : str)
| St_expander (label : str) (expanded : bool) (df : DataFrame)
    (* [with st.expander(label, expanded): st.dataframe(df)] *)
| St_download_button (label : str) (data : list N) (file_name mime : str).

(** What writing the table to the workbook does: it leaves bytes in the
    buffer, or it raises (openpyxl, for one, refuses a cell with a control
    character); the exception is kept as its message. *)
Inductive written :=
| Bytes (data : list N)
| Refused (exception : str).

(** How the handler ends: it returns, or an exception leaves it, none of
    lines 129-149 being inside a [try]. *)
Inductive ending :=
| Returns
| Uncaught (exception : str).

Section Exporter.

(** What [df.to_excel(writer, index, sheet_name)] and the closing of a
    [pd.ExcelWriter] with the openpyxl engine do with a table: the
    serializer is pandas' and openpyxl's, not the repository's. *)
Variable excel_writer : DataFrame -> bool -> str -> written.

(** [to_excel] (lines 82-91): the bytes of the buffer, unless writing
    raises. *)
Definition to_excel (df : DataFrame) : written :=
  excel_writer df false (py "Results").

(** Lines 131-149, the branch on [all_results]: what is shown, in order,
    and how the branch ends.  The success message and the preview are shown
    before [to_excel] is called. *)
Definition report (all_results : list ResultRecord) : list widget * ending :=
  match all_results with
  | _ :: _ =>
      let df := pd_DataFrame all_results in
      let shown :=
        [ St_success (py "Successfully extracted " ++ str_of_nat (len df)
                      ++ py " rows of data!");
          St_expander ([128065; 65039]%N ++ py " Preview Extracted Data")
                      true df ] in
      match to_excel df with
      | Bytes excel_data =>
          (shown ++
           [ St_download_button
               ([128229]%N ++ py " Download Excel File")
               excel_data
               (py "VTU_Bulk_Results.xlsx")
               (py "application/vnd.openxmlformats-officedocument.spreadsheetml.sheet") ],
           Returns)
      | Refused exception => (shown, Uncaught exception)
      end
  | [] =>
      ([ St_warning (py "No result data found in the uploaded PDFs. Please check if the format matches.") ],
       Returns)
  end.

(** Lines 110-149: nothing happens without files; with files the button is
    shown, and when it is clicked the files are processed and the report is
    shown.  The result is the events of the upload loop, the widgets shown
    and how the handler ends. *)
Definition handle_upload (uploaded_files : list UploadedFile) (clicked : bool)
  : list ui_event * list widget * ending :=
  match uploaded_files with
  | [] => ([], [], Returns)
  | _ :: _ =>
      let button :=
        St_button (py "Process " ++ str_of_nat (List.length uploaded_files)
                   ++ py " Files") in
      if clicked
      then match process_files uploaded_files with
           | Ok st => (snd st, button :: fst (report (fst st)),
                       snd (report (fst st)))
           | Raise e => ([], [button], Uncaught (exn_str e))
           end
      else ([], [button], Returns)
  end.

End Exporter.

End Report.

Import Report.

(* ===================================================================== *)
(** ** Vocabulary of the properties *)
(* ===================================================================== *)

(** [s] neither starts nor ends with a whitespace character. *)
Definition trimmed (s : str) : Prop :=
  (forall c t, s = c :: t -> Py_UNICODE_ISSPACE c = false) /\
  (forall c t, s = t ++ [c] -> Py_UNICODE_ISSPACE c = false).

(** [s] does not start with a character of [cls]. *)
Definition stops (cls : char -> bool) (s : str) : Prop :=
  forall c t, s = c :: t -> cls c = false.

(** Whether the capturing group is part of the pattern. *)
Definition has_group (p : pattern) : bool :=
  existsb (fun n => match n with Rep true _ _ _ => true | _ => false end) p.



(** The label [l] occurs somewhere in [s]. *)
Definition occurs (l s : str) : Prop := exists pre post, s = pre ++ l ++ post.

(** The identity of a page, as values: the resolved strings. *)
Definition usn_of (text : str) : str :=
  match resolve_usn text with Ok v => v | Raise _ => [] end.

(** The same for the name. *)
Definition name_of (text : str) : str :=
  match resolve_name text with Ok v => v | Raise _ => [] end.

(** What [[:,-]?] can match: nothing, or one of the three characters. *)
Definition is_separator (sep : str) : Prop :=
  sep = [] \/ exists c, sep = [c] /\ cls_sep c = true.

(** A run of whitespace characters, as [\s*] takes it. *)
Definition spaces (ws : str) : Prop := forallb cls_space ws = true.



(** [clean_row[i]], for [i] within the row. *)
Definition cell_at (i : nat) (r : row) : str := clean_cell (nth i r None).

(** The cell starts with a run of five or more characters of [[A-Z0-9]]. *)
Definition code_like (c : str) : Prop :=
  exists run rest,
    c = run ++ rest /\ 5 <= List.length run /\
    forallb cls_upper_digit run = true.

(** The condition of line 49, as a boolean. *)
Definition qualifies (r : row) : bool :=
  (6 <=? List.length r) && (5 <=? span cls_upper_digit None (cell_at 0 r)).

(** The condition of lines 59 and 61. *)
Definition repairable (internal external : str) : bool :=
  negb (truthy external) && contains SPACE internal &&
  match split internal with
  | [t0; t1] => isdigit t0 && isdigit t1
  | _ => false
  end.

(** [internal] and [external] after lines 58-63. *)
Definition repaired (internal external : str) : str * str :=
  if repairable internal external
  then match split internal with
       | [t0; t1] => (t0, t1)
       | _ => (internal, external)
       end
  else (internal, external).

(** The dictionary of lines 65-75 for the row [r]. *)
Definition record_of (usn name_ file_name : str) (r : row) : ResultRecord :=
  {| USN := usn; Student_Name := name_;
     Subject_Code := cell_at 0 r; Subject_Name := cell_at 1 r;
     Internal := fst (repaired (cell_at 2 r) (cell_at 3 r));
     External := snd (repaired (cell_at 2 r) (cell_at 3 r));
     Total := cell_at 4 r; Result := cell_at 5 r;
     Source_File := file_name |}.

(** What one row adds to [extracted_data]. *)
Definition row_records (usn name_ file_name : str) (r : row)
  : list ResultRecord :=
  if qualifies r then [record_of usn name_ file_name r] else [].

(** A page that decodes: its text and its tables. *)
Definition decoded (pg : str * list table) : Page :=
  {| extract_text := Ok (fst pg); extract_tables := Ok (snd pg) |}.

(** A file that opens, with pages that decode. *)
Definition document (file_name : str) (pgs : list (str * list table))
  : UploadedFile :=
  {| name := file_name; pdfplumber_open := Ok (List.map decoded pgs) |}.

(** What one page adds to [extracted_data]. *)
Definition page_records (file_name : str) (pg : str * list table)
  : list ResultRecord :=
  flat_map (flat_map (row_records (usn_of (fst pg)) (name_of (fst pg)) file_name))
           (snd pg).

(** What [extract_data_from_pdf] returns and shows, as values. *)
Definition data_of (f : UploadedFile) : list ResultRecord :=
  match try_body f with Ok rs => rs | Raise _ => [] end.

(** The events it shows: one error when the [try] body raised. *)
Definition events_of (f : UploadedFile) : list ui_event :=
  match try_body f with
  | Ok _ => []
  | Raise e => [St_error (error_message f e)]
  end.

(** A page fails while decoding: its text, or its tables. *)
Definition page_fails (page : Page) (e : exn) : Prop :=
  extract_text page = Raise e \/
  exists text, extract_text page = Ok text /\ extract_tables page = Raise e.

(** Not a whitespace character. *)
Definition nonspace (c : char) : bool := negb (Py_UNICODE_ISSPACE c).

(** A field as normalization leaves it: no whitespace at either end and no
    newline anywhere. *)
Definition clean_field (s : str) : Prop := trimmed s /\ ~ In NEWLINE s.

(** The rows of all tables of all pages, in reading order. *)
Definition all_rows (pgs : list (str * list table)) : list row :=
  List.concat (List.concat (List.map snd pgs)).

(** Whether the [try] body of [extract_data_from_pdf] raises on [f]. *)
Definition fails (f : UploadedFile) : bool :=
  match try_body f with Ok _ => false | Raise _ => true end.

(** What the upload loop shows for one file: its status line, and its
    error when it fails. *)
Definition file_events (f : UploadedFile) : list ui_event :=
  Status_text (py "Processing " ++ name f ++ py "...") :: events_of f.

(** [all_results] after the upload loop, as a value. *)
Definition dataset (fs : list UploadedFile) : list ResultRecord :=
  match process_files fs with Ok st => fst st | Raise _ => [] end.

(** The number of [st.error] events in a log. *)
Definition count_errors (ui : list ui_event) : nat :=
  List.length (filter (fun ev => match ev with St_error _ => true | _ => false end) ui).

(* ===================================================================== *)
(** ** Sample rows, pages and files *)
(* ===================================================================== *)

(** Two marks merged into the internal cell, with a tab between them. *)
Definition tab_merged_row : row :=
  [ Some (py "BMATE201"); Some (py "Math"); Some (py "25" ++ [TAB] ++ py "40");
    Some []; Some (py "65"); Some (py "P") ].

(** Two marks merged into the internal cell, with a space between them,
    and a seventh cell. *)
Definition merged_row : row :=
  List.map (fun s => Some (py s))
    ["BMATE201"; "Math"; "25 40"; ""; "65"; "P"; "extra"]%string.

(** The record of [merged_row]. *)
Definition merged_record : ResultRecord :=
  {| USN := py "1AB"; Student_Name := py "Asha";
     Subject_Code := py "BMATE201"; Subject_Name := py "Math";
     Internal := py "25"; External := py "40";
     Total := py "65"; Result := py "P"; Source_File := py "a.pdf" |}.

(** Three numbers in the internal cell. *)
Definition three_marks_row : row :=
  List.map (fun s => Some (py s))
    ["BMATE201"; "Math"; "25 40 10"; ""; "65"; "P"]%string.

(** The record of [three_marks_row]. *)
Definition three_marks_record : ResultRecord :=
  {| USN := py "1AB"; Student_Name := py "Asha";
     Subject_Code := py "BMATE201"; Subject_Name := py "Math";
     Internal := py "25 40 10"; External := [];
     Total := py "65"; Result := py "P"; Source_File := py "a.pdf" |}.

(** A subject code with a suffix after the alphanumeric run. *)
Definition lab_row : row :=
  List.map (fun s => Some (py s))
    ["BMATE201 (Lab)"; "Math"; "25"; "40"; "65"; "P"]%string.

(** The record of [lab_row]. *)
Definition lab_record : ResultRecord :=
  {| USN := py "1AB"; Student_Name := py "Asha";
     Subject_Code := py "BMATE201 (Lab)"; Subject_Name := py "Math";
     Internal := py "25"; External := py "40";
     Total := py "65"; Result := py "P"; Source_File := py "a.pdf" |}.

(** A page with both labels, a table with a header row and a result row,
    and a second table. *)
Definition page_one : str * list table :=
  (py "University Seat Number : 1AB21CS001 Student Name : Asha Rao",
   [ [ List.map (fun s => Some (py s))
         ["Code"; "Name"; "Int"; "Ext"; "Total"; "Result"]%string;
       List.map (fun s => Some (py s))
         ["BMATE201"; "Math"; "25"; "40"; "65"; "P"]%string ];
     [ List.map (fun s => Some (py s))
         ["BPHYS202"; "Physics"; "20"; "30"; "50"; "P"]%string ] ]).

(** A page without labels. *)
Definition page_two : str * list table :=
  (py "Page 2",
   [ [ List.map (fun s => Some (py s))
         ["BCHES203"; "Chemistry"; "AB"; "AB"; "0"; "F"]%string ] ]).

(** A record written with string literals. *)
Definition mk (usn name_ code subject i e t res src : string) : ResultRecord :=
  {| USN := py usn; Student_Name := py name_; Subject_Code := py code;
     Subject_Name := py subject; Internal := py i; External := py e;
     Total := py t; Result := py res; Source_File := py src |}.

(** A file whose second page cannot be decoded, after a first page with two
    result rows. *)
Definition broken_file : UploadedFile :=
  {| name := py "b.pdf";
     pdfplumber_open :=
       Ok (List.map decoded [page_one] ++
           {| extract_text := Ok (py "Page 2");
              extract_tables := Raise (DecodeError (py "bad xref")) |} :: []) |}.


(** A sample serializer, which refuses a table with a control character below
    U+0020 other than tab, newline and carriage return in a cell, and
    otherwise writes one byte per row. *)
Definition strict_writer (df : DataFrame) (index : bool) (sheet_name : str)
  : written :=
  if existsb (existsb (existsb (fun c =>
        (c <? 32)%N && negb (N.eqb c 9 || N.eqb c 10 || N.eqb c 13))))
      (values df)
  then Refused (py "IllegalCharacterError")
  else Bytes (List.map (fun _ => 0%N) (values df)).

(** A page whose result row has the control character U+0001 in its
    subject name: normalization keeps it. *)
Definition control_page : str * list table :=
  (py "University Seat Number : 1AB21CS001",
   [ [ [ Some (py "BMATE201"); Some [1%N]; Some (py "25"); Some (py "40");
         Some (py "65"); Some (py "P") ] ] ]).

(* ===================================================================== *)
(** ** Facts about strings *)
(* ===================================================================== *)

Section StringFacts.

Lemma lstrip_decompose (s : str) :
  exists w, s = w ++ lstrip s /\ forallb Py_UNICODE_ISSPACE w = true.
Proof.
  induction s as [|c s IH]; simpl.
  - exists []. split; reflexivity.
  - destruct (Py_UNICODE_ISSPACE c) eqn:Hc.
    + destruct IH as [w [Hs Hw]]. exists (c :: w). simpl.
      rewrite Hc, Hw. split; [congruence | reflexivity].
    + exists []. split; reflexivity.
Qed.

Lemma lstrip_head (s : str) (c : char) (t : str) :
  lstrip s = c :: t -> Py_UNICODE_ISSPACE c = false.
Proof.
  induction s as [|d s IH]; simpl; [discriminate|].
  destruct (Py_UNICODE_ISSPACE d) eqn:Hd; [exact IH|].
  intros H. injection H as -> _. exact Hd.
Qed.

Lemma lstrip_fixed (s : str) :
  (forall c t, s = c :: t -> Py_UNICODE_ISSPACE c = false) -> lstrip s = s.
Proof.
  destruct s as [|c t]; simpl; [reflexivity|].
  intros H. rewrite (H c t eq_refl). reflexivity.
Qed.

Lemma strip_trimmed (s : str) : trimmed (strip s).
Proof.
  unfold strip, rstrip. set (a := lstrip s).
  destruct (lstrip_decompose (rev a)) as [w [Hrev _]].
  split; intros c t Heq.
  - assert (Ha : a = (c :: t) ++ rev w).
    { rewrite <- Heq, <- rev_app_distr, <- Hrev, rev_involutive. reflexivity. }
    apply (lstrip_head s c (t ++ rev w)). exact Ha.
  - apply (lstrip_head (rev a) c (rev t)).
    rewrite <- (rev_involutive (lstrip (rev a))), Heq, rev_app_distr.
    reflexivity.
Qed.

Lemma strip_fixed (s : str) : trimmed s -> strip s = s.
Proof.
  intros [Hh Hl]. unfold strip, rstrip.
  rewrite (lstrip_fixed s Hh), lstrip_fixed, rev_involutive; [reflexivity|].
  intros c t Heq. apply (Hl c (rev t)).
  rewrite <- (rev_involutive s), Heq. reflexivity.
Qed.

Lemma strip_nil : strip [] = [].
Proof. reflexivity. Qed.

End StringFacts.

(* ===================================================================== *)
(** ** Facts about the matcher *)
(* ===================================================================== *)

Section MatcherFacts.

Lemma stops_nil (cls : char -> bool) : stops cls [].
Proof. intros c t H. discriminate H. Qed.

Lemma stops_cons (cls : char -> bool) (c : char) (t : str) :
  cls c = false -> stops cls (c :: t).
Proof. intros Hc d u H. injection H as <- _. exact Hc. Qed.

Lemma span_le_length cls hi (s : str) : span cls hi s <= List.length s.
Proof.
  revert hi. induction s as [|c s IH]; intros hi.
  - destruct hi as [[|h]|]; simpl; lia.
  - destruct hi as [[|h]|]; simpl; try lia;
      destruct (cls c); simpl; try lia.
    + specialize (IH (Some h)). simpl in IH. lia.
    + specialize (IH None). simpl in IH. lia.
Qed.

Lemma span_firstn cls hi (s : str) :
  forallb cls (firstn (span cls hi s) s) = true.
Proof.
  revert hi. induction s as [|c s IH]; intros hi.
  - destruct hi as [[|h]|]; reflexivity.
  - destruct hi as [[|h]|]; simpl; try reflexivity;
      destruct (cls c) eqn:Hc; simpl; try reflexivity; rewrite Hc; simpl.
    + apply (IH (Some h)).
    + apply (IH None).
Qed.

Lemma span_unbounded_app cls (run rest : str) :
  forallb cls run = true ->
  span cls None (run ++ rest) = List.length run + span cls None rest.
Proof.
  induction run as [|c run IH]; simpl; intros H; [reflexivity|].
  apply andb_prop in H. destruct H as [Hc Hr]. rewrite Hc.
  simpl in IH. rewrite (IH Hr). reflexivity.
Qed.

Lemma span_stops cls hi (s : str) : stops cls s -> span cls hi s = 0.
Proof.
  intros H. destruct s as [|c t].
  - destruct hi as [[|h]|]; reflexivity.
  - destruct hi as [[|h]|]; simpl; try reflexivity;
      rewrite (H c t eq_refl); reflexivity.
Qed.

Lemma span_run cls (run rest : str) :
  forallb cls run = true -> stops cls rest ->
  span cls None (run ++ rest) = List.length run.
Proof.
  intros Hr Hs. rewrite (span_unbounded_app cls run rest Hr), (span_stops cls None rest Hs). lia.
Qed.

Lemma span_ge_prefix cls (s : str) (n : nat) :
  n <= span cls None s ->
  exists run rest, s = run ++ rest /\ List.length run = n /\ forallb cls run = true.
Proof.
  revert n. induction s as [|c s IH]; intros n Hn; simpl in Hn.
  - exists [], []. assert (n = 0) by lia. subst. repeat split.
  - destruct n as [|n].
    + exists [], (c :: s). repeat split.
    + destruct (cls c) eqn:Hc; [|lia].
      destruct (IH n) as [run [rest [Hs [Hl Hall]]]]; [simpl; lia|].
      exists (c :: run), rest. simpl. rewrite Hc, Hall, Hl, Hs. repeat split.
Qed.

Lemma backoff_first {R} lo k (cont : nat -> option R) r :
  cont k = Some r -> backoff lo k cont = Some r.
Proof. intros H. destruct k; simpl; rewrite H; reflexivity. Qed.

Lemma backoff_sound {R} lo k (cont : nat -> option R) r :
  backoff lo k cont = Some r -> exists j, j <= k /\ cont j = Some r.
Proof.
  induction k as [|k IH]; simpl.
  - destruct (cont 0) eqn:H0; [|discriminate].
    intros H. exists 0. split; [lia | congruence].
  - destruct (cont (S k)) eqn:HS.
    + intros H. exists (S k). split; [lia | congruence].
    + destruct (lo <=? k); [|discriminate].
      intros H. destruct (IH H) as [j [Hj Hc]]. exists j. split; [lia | exact Hc].
Qed.

Lemma exec_lits (l : str) p pos (s : str) g :
  exec (lits l ++ p) pos (l ++ s) g = exec p (pos + List.length l) s g.
Proof.
  revert pos. induction l as [|c l IH]; intros pos; simpl.
  - f_equal. lia.
  - rewrite N.eqb_refl. unfold lits in IH. rewrite IH. f_equal. lia.
Qed.

Lemma exec_lits_prefix (l : str) p pos (s : str) g r :
  exec (lits l ++ p) pos s g = Some r -> exists s', s = l ++ s'.
Proof.
  revert pos s. induction l as [|c l IH]; intros pos s; simpl.
  - intros _. exists s. reflexivity.
  - destruct s as [|d s]; [discriminate|].
    destruct (N.eqb_spec d c) as [->|]; [|discriminate].
    intros H. destruct (IH _ _ H) as [s' ->]. exists s'. reflexivity.
Qed.

Lemma exec_rep_greedy (cap : bool) cls lo hi p pos (s : str) g r :
  lo <= span cls hi s ->
  exec p (pos + span cls hi s) (skipn (span cls hi s) s)
       (if cap then Some (firstn (span cls hi s) s) else g) = Some r ->
  exec (Rep cap cls lo hi :: p) pos s g = Some r.
Proof.
  intros Hlo H. simpl.
  destruct (Nat.ltb_spec (span cls hi s) lo) as [Hlt|_]; [lia|].
  apply backoff_first. exact H.
Qed.

Lemma exec_group p : forall pos (s : str) g e g',
  exec p pos s g = Some (e, g') ->
  if has_group p then exists v, g' = Some v else g' = g.
Proof.
  induction p as [|n p IH]; intros pos s g e g' H; simpl in H.
  - injection H as _ <-. reflexivity.
  - destruct n as [|c|cap cls lo hi].
    + destruct (pos =? 0); [|discriminate]. exact (IH _ _ _ _ _ H).
    + destruct s as [|d s]; [discriminate|].
      destruct (N.eqb d c); [|discriminate]. exact (IH _ _ _ _ _ H).
    + destruct (span cls hi s <? lo); [discriminate|].
      apply backoff_sound in H. destruct H as [j [_ H]].
      specialize (IH _ _ _ _ _ H).
      change (has_group (Rep cap cls lo hi :: p))
        with ((if cap then true else false) || has_group p).
      destruct cap; simpl.
      * destruct (has_group p); [exact IH | eexists; exact IH].
      * exact IH.
Qed.



End MatcherFacts.

(* ===================================================================== *)
(** ** Facts about [re.search] *)
(* ===================================================================== *)

Section SearchFacts.

Lemma search_from_some p : forall (s : str) pos m,
  search_from p pos s = Some m ->
  exists pre post, s = pre ++ post /\
                   match_at p (pos + List.length pre) post = Some m.
Proof.
  induction s as [|c s IH]; intros pos m; simpl.
  - destruct (match_at p pos []) eqn:H; [|discriminate].
    intros Hm. exists [], []. simpl. rewrite Nat.add_0_r. split; congruence.
  - destruct (match_at p pos (c :: s)) eqn:H.
    + intros Hm. exists [], (c :: s). simpl. rewrite Nat.add_0_r.
      split; congruence.
    + intros Hm. destruct (IH _ _ Hm) as [pre [post [-> Hp]]].
      exists (c :: pre), post. simpl. split; [reflexivity|].
      rewrite <- Hp. f_equal. lia.
Qed.

Lemma search_from_none p : forall (s : str) pos,
  (forall pre post, s = pre ++ post ->
                    match_at p (pos + List.length pre) post = None) ->
  search_from p pos s = None.
Proof.
  induction s as [|c s IH]; intros pos H; simpl.
  - specialize (H [] [] eq_refl). simpl in H. rewrite Nat.add_0_r in H.
    rewrite H. reflexivity.
  - pose proof (H [] (c :: s) eq_refl) as H0. simpl in H0.
    rewrite Nat.add_0_r in H0. rewrite H0.
    apply IH. intros pre post ->.
    specialize (H (c :: pre) post eq_refl). simpl in H.
    rewrite <- H. f_equal. lia.
Qed.



Lemma match_at_group p pos (s : str) m :
  has_group p = true -> match_at p pos s = Some m ->
  exists g, group1 m = Some g.
Proof.
  unfold match_at. intros Hg.
  destruct (exec p pos s None) as [[e g]|] eqn:H; [|discriminate].
  intros Hm. injection Hm as <-. simpl.
  pose proof (exec_group p pos s None e g H) as Hx. rewrite Hg in Hx. exact Hx.
Qed.

Lemma match_at_label (l : str) p pos (s : str) m :
  match_at (lits l ++ p) pos s = Some m -> exists s', s = l ++ s'.
Proof.
  unfold match_at.
  destruct (exec (lits l ++ p) pos s None) as [r|] eqn:H; [|discriminate].
  intros _. exact (exec_lits_prefix l p pos s None r H).
Qed.

Lemma search_needs_label (l : str) p (s : str) :
  ~ occurs l s -> re_search (lits l ++ p) s = None.
Proof.
  intros Hno. apply search_from_none. intros pre post ->.
  destruct (match_at (lits l ++ p) (0 + List.length pre) post) eqn:H;
    [|reflexivity].
  exfalso. apply Hno. destruct (match_at_label l p _ post m H) as [s' ->].
  exists pre, s'. reflexivity.
Qed.

Lemma search_group p (s : str) m :
  has_group p = true -> re_search p s = Some m -> exists g, group1 m = Some g.
Proof.
  intros Hg Hs. destruct (search_from_some p s 0 m Hs) as [pre [post [_ Hm]]].
  exact (match_at_group p _ post m Hg Hm).
Qed.

Lemma group1_or_unknown_ok p (s : str) :
  has_group p = true ->
  exists v, group1_or_unknown (re_search p s) = Ok v /\ trimmed v.
Proof.
  intros Hg. destruct (re_search p s) as [m|] eqn:Hs; simpl.
  - destruct (search_group p s m Hg Hs) as [g ->].
    exists (strip g). split; [reflexivity | apply strip_trimmed].
  - exists (py "Unknown"). split; [reflexivity|].
    split; intros c t H.
    + injection H as <- _. reflexivity.
    + assert (Hr : rev (py "Unknown") = rev (t ++ [c])) by (f_equal; exact H).
      rewrite rev_app_distr in Hr. simpl in Hr. injection Hr as <- _.
      reflexivity.
Qed.

End SearchFacts.

Lemma resolve_usn_ok (text : str) : resolve_usn text = Ok (usn_of text).
Proof.
  unfold usn_of.
  destruct (group1_or_unknown_ok usn_pattern text eq_refl) as [v [H _]].
  unfold resolve_usn. rewrite H. reflexivity.
Qed.

Lemma resolve_name_ok (text : str) : resolve_name text = Ok (name_of text).
Proof.
  unfold name_of.
  destruct (group1_or_unknown_ok name_pattern text eq_refl) as [v [H _]].
  unfold resolve_name. rewrite H. reflexivity.
Qed.

(* ===================================================================== *)
(** ** Identity resolution (lines 29-36) *)
(* ===================================================================== *)

(** C4. Identity resolution never raises: for every page text, [resolve_usn]
    and [resolve_name] return a string, and that string has no leading or
    trailing whitespace.  When the pattern of a label has no match, and in
    particular when the label phrase does not occur in the text at all, the
    value is the sentinel "Unknown"; when it has a match, the value is the
    captured group with the whitespace at both ends removed.  The value is a
    function of the page text alone. *)
Theorem identity_resolution_sentinel (text : str) :
  (exists u, resolve_usn text = Ok u /\ trimmed u) /\
  (exists n, resolve_name text = Ok n /\ trimmed n) /\
  (re_search usn_pattern text = None -> resolve_usn text = Ok (py "Unknown")) /\
  (re_search name_pattern text = None -> resolve_name text = Ok (py "Unknown")) /\
  (~ occurs usn_label text -> resolve_usn text = Ok (py "Unknown")) /\
  (~ occurs name_label text -> resolve_name text = Ok (py "Unknown")) /\
  (forall m, re_search usn_pattern text = Some m ->
     exists g, group1 m = Some g /\ resolve_usn text = Ok (strip g)) /\
  (forall m, re_search name_pattern text = Some m ->
     exists g, group1 m = Some g /\ resolve_name text = Ok (strip g)).
Proof.
  repeat split.
  - exact (group1_or_unknown_ok usn_pattern text eq_refl).
  - exact (group1_or_unknown_ok name_pattern text eq_refl).
  - intros H. unfold resolve_usn. rewrite H. reflexivity.
  - intros H. unfold resolve_name. rewrite H. reflexivity.
  - intros H. unfold resolve_usn, usn_pattern.
    rewrite (search_needs_label usn_label _ text H). reflexivity.
  - intros H. unfold resolve_name, name_pattern.
    rewrite (search_needs_label name_label _ text H). reflexivity.
  - intros m H. destruct (search_group usn_pattern text m eq_refl H) as [g Hg].
    exists g. split; [exact Hg|]. unfold resolve_usn. rewrite H. simpl.
    rewrite Hg. reflexivity.
  - intros m H. destruct (search_group name_pattern text m eq_refl H) as [g Hg].
    exists g. split; [exact Hg|]. unfold resolve_name. rewrite H. simpl.
    rewrite Hg. reflexivity.
Qed.

(** A page with neither label: both fields are the sentinel. *)
Example identity_resolution_sentinel_run :
  resolve_usn (py "Semester : 2") = Ok (py "Unknown") /\
  resolve_name (py "Semester : 2") = Ok (py "Unknown") /\
  resolve_name (py "Student Name :  Asha Rao  ") = Ok (py "Asha Rao").
Proof. repeat split; vm_compute; reflexivity. Qed.

(* ===================================================================== *)
(** ** The separator after a label *)
(* ===================================================================== *)

Section Separator.

Lemma in_ranges_bounds tbl c :
  in_ranges tbl c = true ->
  exists lo hi, In (lo, hi) tbl /\ (lo <= c /\ c <= hi)%N.
Proof.
  unfold in_ranges. intros H. apply existsb_exists in H.
  destruct H as [[lo hi] [Hin Hr]]. exists lo, hi. split; [exact Hin|].
  unfold in_range in Hr. simpl in Hr. apply andb_prop in Hr.
  destruct Hr as [H1 H2]. apply N.leb_le in H1. apply N.leb_le in H2.
  split; assumption.
Qed.

Lemma in_range_bounds lo hi c :
  in_range lo hi c = true -> (lo <= c /\ c <= hi)%N.
Proof.
  unfold in_range. intros H. apply andb_prop in H. destruct H as [H1 H2].
  apply N.leb_le in H1. apply N.leb_le in H2. split; assumption.
Qed.

(** Below 133, whitespace is 9-13 and 28-32. *)
Lemma space_bounds c :
  cls_space c = true ->
  ((9 <= c /\ c <= 13) \/ (28 <= c /\ c <= 32) \/ 133 <= c)%N.
Proof.
  intros H. apply in_ranges_bounds in H.
  destruct H as [lo [hi [Hin Hb]]]. simpl in Hin.
  repeat (destruct Hin as [Hin|Hin];
          [injection Hin as <- <-; lia|]).
  contradiction.
Qed.

Lemma sep_not_space c : cls_sep c = true -> cls_space c = false.
Proof.
  unfold cls_sep. intros H.
  destruct (cls_space c) eqn:Hs; [|reflexivity].
  apply space_bounds in Hs.
  apply orb_prop in H. destruct H as [H|H];
    [apply orb_prop in H; destruct H as [H|H]|];
    apply N.eqb_eq in H; lia.
Qed.

Lemma upper_digit_bounds c :
  cls_upper_digit c = true ->
  ((48 <= c /\ c <= 57) \/ (65 <= c /\ c <= 90))%N.
Proof.
  unfold cls_upper_digit. intros H. apply orb_prop in H.
  destruct H as [H|H]; apply in_range_bounds in H; [left | right]; exact H.
Qed.

Lemma upper_digit_not_space c : cls_upper_digit c = true -> cls_space c = false.
Proof.
  intros H. apply upper_digit_bounds in H.
  destruct (cls_space c) eqn:Hs; [|reflexivity].
  apply space_bounds in Hs. lia.
Qed.

Lemma upper_digit_not_sep c : cls_upper_digit c = true -> cls_sep c = false.
Proof.
  intros H. apply upper_digit_bounds in H. unfold cls_sep.
  destruct (N.eqb_spec c 58); [lia|].
  destruct (N.eqb_spec c 44); [lia|].
  destruct (N.eqb_spec c 45); [lia|]. reflexivity.
Qed.

Lemma skipn_length_app (l t : str) : skipn (List.length l) (l ++ t) = t.
Proof. induction l; simpl; [reflexivity | assumption]. Qed.

Lemma firstn_length_app (l t : str) : firstn (List.length l) (l ++ t) = l.
Proof. induction l; simpl; [reflexivity | f_equal; assumption]. Qed.

Lemma exec_at p pos pos' (s : str) g :
  pos = pos' -> exec p pos s g = exec p pos' s g.
Proof. intros ->. reflexivity. Qed.

(** The three repetitions of [separator] take all of
    [ws1 ++ sep ++ ws2] when what follows starts with neither a whitespace
    nor a separator character, and the rest of the pattern matches there. *)
Lemma exec_separator p pos (ws1 sep ws2 t : str) g r :
  spaces ws1 -> spaces ws2 -> is_separator sep ->
  stops cls_space t -> stops cls_sep t ->
  exec p (pos + List.length (ws1 ++ sep ++ ws2)) t g = Some r ->
  exec (separator ++ p) pos (ws1 ++ sep ++ ws2 ++ t) g = Some r.
Proof.
  intros H1 H2 Hsep Ht1 Ht2 Hp. unfold separator. simpl app.
  destruct Hsep as [->|[c [-> Hc]]].
  - (* no separator character: the first [\s*] takes both runs *)
    simpl app in *. rewrite app_assoc.
    assert (Hw : forallb cls_space (ws1 ++ ws2) = true).
    { rewrite forallb_app. unfold spaces in H1, H2. rewrite H1, H2. reflexivity. }
    apply exec_rep_greedy; rewrite (span_run cls_space _ t Hw Ht1); [lia|].
    rewrite skipn_length_app.
    apply exec_rep_greedy; rewrite (span_stops cls_sep (Some 1) t Ht2); [lia|].
    simpl skipn.
    apply exec_rep_greedy; rewrite (span_stops cls_space None t Ht1); [lia|].
    simpl skipn. rewrite <- Hp. apply exec_at. lia.
  - (* one separator character between the two runs *)
    assert (Hs : stops cls_space ([c] ++ ws2 ++ t)).
    { apply stops_cons. apply sep_not_space. exact Hc. }
    apply exec_rep_greedy; rewrite (span_run cls_space ws1 _ H1 Hs); [lia|].
    rewrite skipn_length_app.
    assert (Hspan : span cls_sep (Some 1) ([c] ++ ws2 ++ t) = 1).
    { simpl. rewrite Hc. destruct (ws2 ++ t); reflexivity. }
    apply exec_rep_greedy; rewrite Hspan; [lia|]. simpl skipn.
    apply exec_rep_greedy; rewrite (span_run cls_space ws2 t H2 Ht1); [lia|].
    rewrite skipn_length_app. rewrite <- Hp. apply exec_at.
    rewrite !length_app. simpl. lia.
Qed.

Lemma search_at_start p (s : str) m :
  re_match p s = Some m -> re_search p s = Some m.
Proof.
  unfold re_match, re_search. intros H. destruct s; simpl; rewrite H; reflexivity.
Qed.

Lemma upper_digit_trimmed (v : str) :
  forallb cls_upper_digit v = true -> trimmed v.
Proof.
  intros H. split; intros c t ->.
  - simpl in H. apply andb_prop in H. apply upper_digit_not_space. apply H.
  - rewrite forallb_app in H. apply andb_prop in H. destruct H as [_ H].
    simpl in H. apply andb_prop in H. apply upper_digit_not_space. apply H.
Qed.

(** A text that starts with a label, a separator and a value [v] of the
    captured class: the match is at offset 0 and group 1 is [v]. *)
Lemma label_match (label : str) cls (ws1 sep ws2 : str) c (v' rest : str) :
  spaces ws1 -> spaces ws2 -> is_separator sep ->
  cls_space c = false -> cls_sep c = false ->
  forallb cls (c :: v') = true -> stops cls rest ->
  exists e,
    re_match (lits label ++ separator ++ [Rep true cls 1 None])
             (label ++ ws1 ++ sep ++ ws2 ++ (c :: v') ++ rest) =
    Some {| m_start := 0; m_end := e; group1 := Some (c :: v') |}.
Proof.
  intros H1 H2 Hsep Hc1 Hc2 Hv Hrest.
  exists (0 + List.length label + List.length (ws1 ++ sep ++ ws2)
          + List.length (c :: v')).
  unfold re_match, match_at.
  rewrite exec_lits.
  rewrite (exec_separator _ _ ws1 sep ws2 ((c :: v') ++ rest) None
             (0 + List.length label + List.length (ws1 ++ sep ++ ws2)
              + List.length (c :: v'), Some (c :: v')));
    [reflexivity | assumption | assumption | assumption | | | ].
  - apply stops_cons. exact Hc1.
  - apply stops_cons. exact Hc2.
  - apply exec_rep_greedy;
      rewrite (span_run cls (c :: v') rest Hv Hrest);
      [simpl; lia|].
    rewrite skipn_length_app, firstn_length_app. simpl exec. reflexivity.
Qed.

Lemma resolve_usn_at_label (ws1 sep ws2 v rest : str) :
  spaces ws1 -> spaces ws2 -> is_separator sep ->
  v <> [] -> forallb cls_upper_digit v = true -> stops cls_upper_digit rest ->
  resolve_usn (usn_label ++ ws1 ++ sep ++ ws2 ++ v ++ rest) = Ok v.
Proof.
  intros H1 H2 Hsep Hne Hv Hrest.
  destruct v as [|c v']; [contradiction|].
  assert (Hc : cls_upper_digit c = true).
  { simpl in Hv. apply andb_prop in Hv. apply Hv. }
  destruct (label_match usn_label cls_upper_digit ws1 sep ws2 c v' rest H1 H2
              Hsep (upper_digit_not_space c Hc) (upper_digit_not_sep c Hc)
              Hv Hrest) as [e He].
  unfold resolve_usn.
  rewrite (search_at_start usn_pattern _ _ He). simpl group1_or_unknown.
  rewrite (strip_fixed _ (upper_digit_trimmed _ Hv)). reflexivity.
Qed.


Lemma is_separator_iff (sep : str) :
  is_separator sep <-> In sep [ []; py ":"; py ","; py "-" ].
Proof.
  unfold is_separator, cls_sep. split.
  - intros [->|[c [-> H]]]; [left; reflexivity|].
    apply orb_prop in H. destruct H as [H|H];
      [apply orb_prop in H; destruct H as [H|H]|];
      apply N.eqb_eq in H; subst c; simpl; auto.
  - simpl. intros [<-|[<-|[<-|[<-|[]]]]];
      [left; reflexivity | right | right | right];
      eexists; (split; [reflexivity|]); reflexivity.
Qed.

End Separator.

(* ===================================================================== *)
(** ** Separator variants *)
(* ===================================================================== *)

(** C5, as the claim states it, fails: the label of the pattern is the
    phrase "University Seat Number"; after the abbreviation "USN" nothing
    is captured and both texts resolve to the sentinel. *)
Lemma usn_abbreviation_is_no_label :
  resolve_usn (py "USN:ABC123DE") = Ok (py "Unknown") /\
  resolve_usn (py "USN - ABC123DE") = Ok (py "Unknown") /\
  py "Unknown" <> py "ABC123DE".
Proof.
  split; [vm_compute; reflexivity|].
  split; [vm_compute; reflexivity|].
  intros H. discriminate H.
Qed.

(** C5, amended: after the label phrase "University Seat Number" the
    separator variants are interchangeable.  The texts
    "University Seat Number:ABC123DE" and "University Seat Number - ABC123DE"
    both resolve to "ABC123DE"; in general, with any whitespace [ws1], [ws2]
    around no separator, a colon, a comma or a hyphen, the resolved USN is
    the run [v] of uppercase letters and digits that follows, whatever comes
    after the run. *)
Theorem separator_variants :
  resolve_usn (py "University Seat Number:ABC123DE") = Ok (py "ABC123DE") /\
  resolve_usn (py "University Seat Number - ABC123DE") = Ok (py "ABC123DE") /\
  (forall ws1 sep ws2 v rest : str,
     spaces ws1 -> spaces ws2 ->
     In sep [ []; py ":"; py ","; py "-" ] ->
     v <> [] -> forallb cls_upper_digit v = true ->
     stops cls_upper_digit rest ->
     resolve_usn (usn_label ++ ws1 ++ sep ++ ws2 ++ v ++ rest) = Ok v).
Proof.
  split; [vm_compute; reflexivity|].
  split; [vm_compute; reflexivity|].
  intros ws1 sep ws2 v rest H1 H2 Hsep Hne Hv Hrest.
  apply resolve_usn_at_label; try assumption.
  apply is_separator_iff. exact Hsep.
Qed.

(** The general statement at the comma, with a tab before it and a
    non-breaking space after it, and a lowercase letter ending the run. *)
Lemma separator_variants_witness :
  resolve_usn (usn_label ++ [TAB] ++ py "," ++ [160%N] ++ py "1AB21CS001"
               ++ py "x") = Ok (py "1AB21CS001").
Proof.
  apply (proj2 (proj2 separator_variants)).
  - reflexivity.
  - reflexivity.
  - right. right. left. reflexivity.
  - discriminate.
  - reflexivity.
  - apply stops_cons. reflexivity.
Defined.

(* ===================================================================== *)
(** ** Repeated labels *)
(* ===================================================================== *)






(* ===================================================================== *)
(** ** One row (lines 43-75) *)
(* ===================================================================== *)

Section Rows.

Lemma clean_cell_spec (item : cell) :
  clean_cell item =
  match item with
  | None => []
  | Some s => strip (replace NEWLINE SPACE s)
  end.
Proof. destruct item as [[|c s]|]; reflexivity. Qed.

Lemma getitem_clean_row (r : row) (i : nat) :
  i < List.length r -> getitem (List.map clean_cell r) i = Ok (cell_at i r).
Proof.
  intros Hi. unfold getitem, cell_at.
  rewrite (nth_error_nth' (List.map clean_cell r) [])
    by (rewrite length_map; exact Hi).
  change (@nil char) with (clean_cell None). rewrite map_nth. reflexivity.
Qed.

Lemma re_match_code (c : str) :
  re_match code_pattern c =
  if 5 <=? span cls_upper_digit None c
  then Some {| m_start := 0; m_end := span cls_upper_digit None c;
               group1 := None |}
  else None.
Proof.
  unfold re_match, match_at, code_pattern. simpl exec.
  destruct (Nat.leb_spec 5 (span cls_upper_digit None c)) as [H|H].
  - destruct (Nat.ltb_spec (span cls_upper_digit None c) 5); [lia|].
    rewrite (backoff_first 5 (span cls_upper_digit None c) _
               (span cls_upper_digit None c, None)); reflexivity.
  - destruct (Nat.ltb_spec (span cls_upper_digit None c) 5); [|lia].
    reflexivity.
Qed.

Lemma code_like_iff (c : str) :
  code_like c <-> 5 <= span cls_upper_digit None c.
Proof.
  split.
  - intros [run [rest [-> [Hlen Hall]]]].
    rewrite (span_unbounded_app cls_upper_digit run rest Hall). lia.
  - intros H. destruct (span_ge_prefix cls_upper_digit c 5 H)
      as [run [rest [Hc [Hl Hall]]]].
    exists run, rest. repeat split; [exact Hc | lia | exact Hall].
Qed.

Lemma is_result_row_spec (r : row) :
  is_result_row (List.map clean_cell r) = Ok (qualifies r).
Proof.
  unfold is_result_row, qualifies. rewrite length_map.
  destruct (Nat.leb_spec 6 (List.length r)) as [H|H]; [|reflexivity].
  rewrite (getitem_clean_row r 0) by lia. simpl bind.
  rewrite re_match_code.
  destruct (5 <=? span cls_upper_digit None (cell_at 0 r)); reflexivity.
Qed.

Lemma fix_merged_marks_spec (internal external : str) :
  fix_merged_marks internal external = Ok (repaired internal external).
Proof.
  unfold fix_merged_marks, repaired, repairable, two_numbers.
  destruct (negb (truthy external) && contains SPACE internal); [|reflexivity].
  simpl andb.
  destruct (split internal) as [|t0 [|t1 [|t2 l]]]; try reflexivity.
  simpl. destruct (isdigit t0); [|reflexivity].
  simpl. destruct (isdigit t1); reflexivity.
Qed.

(** The loop body appends [row_records] and never raises. *)
Lemma process_row_spec (usn name_ file_name : str)
    (acc : list ResultRecord) (r : row) :
  process_row usn name_ file_name acc r =
  Ok (acc ++ row_records usn name_ file_name r).
Proof.
  unfold process_row, row_records. rewrite is_result_row_spec. simpl bind.
  destruct (qualifies r) eqn:Hq.
  - unfold qualifies in Hq. apply andb_prop in Hq. destruct Hq as [Hlen _].
    apply Nat.leb_le in Hlen.
    rewrite !getitem_clean_row by lia. simpl bind.
    rewrite fix_merged_marks_spec. reflexivity.
  - rewrite app_nil_r. reflexivity.
Qed.

Lemma qualifies_iff (r : row) :
  qualifies r = true <-> 6 <= List.length r /\ code_like (cell_at 0 r).
Proof.
  unfold qualifies. rewrite andb_true_iff, !Nat.leb_le, code_like_iff.
  reflexivity.
Qed.

Lemma process_row_one (usn name_ file_name : str)
    (acc : list ResultRecord) (r : row) (rec : ResultRecord) :
  process_row usn name_ file_name acc r = Ok (acc ++ [rec]) ->
  qualifies r = true /\ rec = record_of usn name_ file_name r.
Proof.
  rewrite process_row_spec. unfold row_records. intros H.
  injection H as H. apply app_inv_head in H.
  destruct (qualifies r); [|discriminate].
  injection H as <-. split; reflexivity.
Qed.

End Rows.

(* ===================================================================== *)
(** ** Row qualification *)
(* ===================================================================== *)

(** C2. A row yields a record if and only if it has at least six cells and
    its normalized first cell starts with a run of at least five characters
    of [[A-Z0-9]] (whatever follows the run); otherwise it yields nothing.
    Either way the loop body returns without raising.  Normalization turns
    [None] into the empty string and otherwise replaces each newline by a
    space and strips the whitespace at both ends. *)
Theorem row_qualification (usn name_ file_name : str)
    (acc : list ResultRecord) (r : row) :
  (exists out,
     process_row usn name_ file_name acc r = Ok out /\
     ((6 <= List.length r /\ code_like (cell_at 0 r)) ->
        exists rec, out = acc ++ [rec]) /\
     (~ (6 <= List.length r /\ code_like (cell_at 0 r)) -> out = acc)) /\
  ((exists rec, process_row usn name_ file_name acc r = Ok (acc ++ [rec])) <->
   (6 <= List.length r /\ code_like (cell_at 0 r))) /\
  (forall i, cell_at i r =
             match nth i r None with
             | None => []
             | Some s => strip (replace NEWLINE SPACE s)
             end).
Proof.
  pose proof (qualifies_iff r) as Hq.
  split; [|split].
  - exists (acc ++ row_records usn name_ file_name r).
    split; [apply process_row_spec|]. unfold row_records. split.
    + intros H. apply Hq in H. rewrite H. eexists. reflexivity.
    + intros H. destruct (qualifies r); [|apply app_nil_r].
      exfalso. apply H. apply Hq. reflexivity.
  - split.
    + intros [rec H]. apply process_row_one in H. apply Hq. apply H.
    + intros H. apply Hq in H. rewrite process_row_spec. unfold row_records.
      rewrite H. eexists. reflexivity.
  - intros i. apply clean_cell_spec.
Qed.

(** A header row, a short row and a row whose first cell starts with only
    two qualifying characters yield nothing; padding and a newline in the
    first cell are normalized before the test. *)
Example row_qualification_run :
  process_row [] [] [] []
    (List.map (fun s => Some (py s))
       ["Subject Code"; "Subject Name"; "Int"; "Ext"; "Total"; "Result"]%string)
  = Ok [] /\
  process_row [] [] [] []
    (List.map (fun s => Some (py s)) ["BMATE201"; "Math"; "25"; "40"; "65"]%string)
  = Ok [] /\
  process_row [] [] [] []
    (List.map (fun s => Some (py s)) ["25 A"; "X"; ""; ""; ""; ""]%string)
  = Ok [] /\
  process_row [] [] [] [] [] = Ok [] /\
  process_row [] [] [] []
    [Some (SPACE :: py "BMATE201" ++ [NEWLINE]); None; None; None; None; None]
  = Ok [ {| USN := []; Student_Name := []; Subject_Code := py "BMATE201";
            Subject_Name := []; Internal := []; External := [];
            Total := []; Result := []; Source_File := [] |} ].
Proof. repeat split; vm_compute; reflexivity. Qed.

(* ===================================================================== *)
(** ** The repair of merged marks *)
(* ===================================================================== *)

Lemma contains_In (c : char) (s : str) : contains c s = true <-> In c s.
Proof.
  unfold contains. rewrite existsb_exists. split.
  - intros [x [Hin Hx]]. apply N.eqb_eq in Hx. subst. exact Hin.
  - intros H. exists c. split; [exact H | apply N.eqb_refl].
Qed.

Lemma truthy_false (s : str) : truthy s = false <-> s = [].
Proof. destruct s; simpl; split; congruence. Qed.

Lemma repaired_fires (internal external t0 t1 : str) :
  external = [] -> In SPACE internal -> split internal = [t0; t1] ->
  isdigit t0 = true -> isdigit t1 = true ->
  repaired internal external = (t0, t1).
Proof.
  intros -> Hin Hsplit H0 H1. unfold repaired, repairable.
  apply contains_In in Hin. rewrite Hin, Hsplit, H0, H1. reflexivity.
Qed.

Lemma repaired_passes (internal external : str) :
  external <> [] \/ ~ In SPACE internal \/
  List.length (split internal) <> 2 \/
  (exists t, In t (split internal) /\ isdigit t = false) ->
  repaired internal external = (internal, external).
Proof.
  intros H. unfold repaired.
  assert (Hr : repairable internal external = false); [|rewrite Hr; reflexivity].
  unfold repairable. destruct H as [H|[H|[H|[t [Hin Ht]]]]].
  - destruct external; [contradiction | reflexivity].
  - destruct (contains SPACE internal) eqn:Hc;
      [apply contains_In in Hc; contradiction|].
    rewrite andb_false_r. reflexivity.
  - destruct (split internal) as [|t0 [|t1 [|t2 l]]];
      try apply andb_false_r. simpl in H. contradiction.
  - destruct (split internal) as [|t0 [|t1 [|t2 l]]];
      try apply andb_false_r.
    destruct Hin as [<-|[<-|[]]]; rewrite Ht;
      [|rewrite andb_false_r]; apply andb_false_r.
Qed.

(** C1, as the claim states it, fails: the guard of the repair looks for the
    space character, not for any whitespace.  With a tab between the two
    marks the cell contains a whitespace character and splits into two
    all-digit tokens, and yet both cells reach the record unmodified. *)
Lemma tab_merged_marks_pass_through :
  cell_at 3 tab_merged_row = [] /\
  cell_at 2 tab_merged_row = py "25" ++ [TAB] ++ py "40" /\
  Py_UNICODE_ISSPACE TAB = true /\
  split (cell_at 2 tab_merged_row) = [py "25"; py "40"] /\
  isdigit (py "25") = true /\ isdigit (py "40") = true /\
  process_row (py "1AB") (py "Asha") (py "a.pdf") [] tab_merged_row =
  Ok [ {| USN := py "1AB"; Student_Name := py "Asha";
          Subject_Code := py "BMATE201"; Subject_Name := py "Math";
          Internal := py "25" ++ [TAB] ++ py "40"; External := [];
          Total := py "65"; Result := py "P"; Source_File := py "a.pdf" |} ].
Proof. repeat split; vm_compute; reflexivity. Qed.

(** C1, amended: for every qualifying row, if the normalized externalMark
    cell (index 3) is empty and the normalized internalMark cell (index 2)
    contains a space character (U+0020), and splitting internalMark on
    whitespace yields exactly two tokens that both consist of digits, the
    record has internalMark = token 0 and externalMark = token 1; in every
    other case (external non-empty, no space character, a number of tokens
    other than two, or a token that is not all digits) both cells pass
    through to the record unmodified. *)
Theorem merge_repair (usn name_ file_name : str)
    (acc : list ResultRecord) (r : row) (rec : ResultRecord) :
  process_row usn name_ file_name acc r = Ok (acc ++ [rec]) ->
  (forall t0 t1,
     cell_at 3 r = [] -> In SPACE (cell_at 2 r) ->
     split (cell_at 2 r) = [t0; t1] ->
     isdigit t0 = true -> isdigit t1 = true ->
     Internal rec = t0 /\ External rec = t1) /\
  (cell_at 3 r <> [] \/ ~ In SPACE (cell_at 2 r) \/
   List.length (split (cell_at 2 r)) <> 2 \/
   (exists t, In t (split (cell_at 2 r)) /\ isdigit t = false) ->
   Internal rec = cell_at 2 r /\ External rec = cell_at 3 r).
Proof.
  intros H. apply process_row_one in H. destruct H as [_ ->]. simpl. split.
  - intros t0 t1 H3 H2 Hs H0 H1.
    rewrite (repaired_fires _ _ t0 t1 H3 H2 Hs H0 H1). split; reflexivity.
  - intros Hc. rewrite (repaired_passes _ _ Hc). split; reflexivity.
Qed.

(** "25 40" with an empty external mark is repaired to 25 and 40, and
    "25 40 10" is left as it is. *)
Lemma merge_repair_witness :
  (Internal merged_record = py "25" /\ External merged_record = py "40") /\
  (Internal three_marks_record = py "25 40 10" /\
   External three_marks_record = []).
Proof.
  split.
  - apply (proj1 (merge_repair (py "1AB") (py "Asha") (py "a.pdf") []
                    merged_row merged_record eq_refl)
             (py "25") (py "40")).
    + reflexivity.
    + right. right. left. reflexivity.
    + reflexivity.
    + reflexivity.
    + reflexivity.
  - apply (proj2 (merge_repair (py "1AB") (py "Asha") (py "a.pdf") []
                    three_marks_row three_marks_record eq_refl)).
    right. right. left. vm_compute. discriminate.
Defined.

(* ===================================================================== *)
(** ** The subject code *)
(* ===================================================================== *)

(** C9. For every qualifying row the subjectCode of the record is the whole
    normalized first cell: the run matched by [^[A-Z0-9]{5,}] together with
    whatever follows it in the cell. *)
Theorem subject_code_is_whole_cell (usn name_ file_name : str)
    (acc : list ResultRecord) (r : row) (rec : ResultRecord) :
  process_row usn name_ file_name acc r = Ok (acc ++ [rec]) ->
  Subject_Code rec = cell_at 0 r /\
  exists m, re_match code_pattern (cell_at 0 r) = Some m /\
            Subject_Code rec =
            firstn (m_end m) (cell_at 0 r) ++ skipn (m_end m) (cell_at 0 r).
Proof.
  intros H. apply process_row_one in H. destruct H as [Hq ->]. simpl.
  split; [reflexivity|].
  unfold qualifies in Hq. apply andb_prop in Hq. destruct Hq as [_ Hq].
  rewrite re_match_code, Hq. eexists. split; [reflexivity|].
  symmetry. apply firstn_skipn.
Qed.

(** The matched run is "BMATE201"; the subject code keeps " (Lab)". *)
Lemma subject_code_is_whole_cell_witness :
  Subject_Code lab_record = py "BMATE201 (Lab)" /\
  exists m, re_match code_pattern (py "BMATE201 (Lab)") = Some m /\
            Subject_Code lab_record =
            firstn (m_end m) (py "BMATE201 (Lab)") ++
            skipn (m_end m) (py "BMATE201 (Lab)").
Proof.
  exact (subject_code_is_whole_cell (py "1AB") (py "Asha") (py "a.pdf") []
           lab_row lab_record eq_refl).
Defined.

(* ===================================================================== *)
(** ** Pages and documents (lines 23-80) *)
(* ===================================================================== *)

Section Documents.

Lemma for_each_append {A B} (body : list A -> B -> outcome (list A))
    (g : B -> list A) :
  (forall acc x, body acc x = Ok (acc ++ g x)) ->
  forall l acc, for_each body acc l = Ok (acc ++ flat_map g l).
Proof.
  intros Hbody. induction l as [|x l IH]; intros acc; simpl.
  - rewrite app_nil_r. reflexivity.
  - rewrite Hbody. simpl. rewrite IH, app_assoc. reflexivity.
Qed.

Lemma for_each_raise {A B} (body : A -> B -> outcome A) (bad : B) e :
  (forall acc, body acc bad = Raise e) ->
  forall pre post acc,
    (forall acc' x, In x pre -> exists a, body acc' x = Ok a) ->
    for_each body acc (pre ++ bad :: post) = Raise e.
Proof.
  intros Hbad. induction pre as [|x pre IH]; intros post acc Hpre; simpl.
  - rewrite Hbad. reflexivity.
  - destruct (Hpre acc x (or_introl eq_refl)) as [a Ha]. rewrite Ha. simpl.
    apply IH. intros acc' y Hy. apply Hpre. right. exact Hy.
Qed.

Lemma process_page_decoded (file_name : str) (acc : list ResultRecord)
    (pg : str * list table) :
  process_page file_name acc (decoded pg) =
  Ok (acc ++ page_records file_name pg).
Proof.
  unfold process_page, decoded, page_records. simpl.
  rewrite resolve_usn_ok, resolve_name_ok. simpl.
  apply for_each_append. intros acc' t.
  apply for_each_append. intros acc'' r. apply process_row_spec.
Qed.

Lemma for_each_pages (file_name : str) (pgs : list (str * list table))
    (acc : list ResultRecord) :
  for_each (process_page file_name) acc (List.map decoded pgs) =
  Ok (acc ++ flat_map (page_records file_name) pgs).
Proof.
  revert acc. induction pgs as [|pg pgs IH]; intros acc; simpl.
  - rewrite app_nil_r. reflexivity.
  - rewrite process_page_decoded. simpl. rewrite IH, app_assoc. reflexivity.
Qed.

Lemma try_body_document (file_name : str) (pgs : list (str * list table)) :
  try_body (document file_name pgs) =
  Ok (flat_map (page_records file_name) pgs).
Proof. unfold try_body, document. simpl. apply for_each_pages. Qed.

Lemma extract_data_from_pdf_spec (f : UploadedFile) :
  extract_data_from_pdf f = Ok (data_of f, events_of f).
Proof.
  unfold extract_data_from_pdf, data_of, events_of.
  destruct (try_body f); reflexivity.
Qed.

Lemma fold_left_extend {A} (batches : list (list A)) (acc : list A) :
  fold_left (fun all_results data => all_results ++ data) batches acc =
  acc ++ List.concat batches.
Proof.
  revert acc. induction batches as [|b bs IH]; intros acc; simpl.
  - rewrite app_nil_r. reflexivity.
  - rewrite IH, app_assoc. reflexivity.
Qed.

Lemma process_file_spec (all_results : list ResultRecord)
    (ui : list ui_event) (f : UploadedFile) :
  process_file (all_results, ui) f =
  Ok (all_results ++ data_of f,
      (ui ++ [Status_text (py "Processing " ++ name f ++ py "...")])
      ++ events_of f).
Proof.
  unfold process_file. rewrite extract_data_from_pdf_spec. reflexivity.
Qed.

Lemma for_each_files (fs : list UploadedFile) :
  forall all_results ui,
    exists ui',
      for_each process_file (all_results, ui) fs =
      Ok (all_results ++ List.concat (List.map data_of fs), ui').
Proof.
  induction fs as [|f fs IH]; intros all_results ui.
  - exists ui. simpl. rewrite app_nil_r. reflexivity.
  - change (for_each process_file (all_results, ui) (f :: fs))
      with (bind (process_file (all_results, ui) f)
                 (fun acc' => for_each process_file acc' fs)).
    rewrite process_file_spec. unfold bind.
    destruct (IH (all_results ++ data_of f)
                 ((ui ++ [Status_text (py "Processing " ++ name f ++ py "...")])
                  ++ events_of f)) as [ui' H].
    exists ui'. rewrite H. simpl List.map. simpl List.concat.
    rewrite app_assoc. reflexivity.
Qed.

Lemma for_each_files_log (fs : list UploadedFile) :
  forall all_results ui,
    for_each process_file (all_results, ui) fs =
    Ok (all_results ++ List.concat (List.map data_of fs),
        ui ++ flat_map file_events fs).
Proof.
  induction fs as [|f fs IH]; intros all_results ui.
  - simpl. rewrite !app_nil_r. reflexivity.
  - change (for_each process_file (all_results, ui) (f :: fs))
      with (bind (process_file (all_results, ui) f)
                 (fun acc' => for_each process_file acc' fs)).
    rewrite process_file_spec. unfold bind. rewrite IH.
    simpl List.map. simpl List.concat. simpl flat_map. unfold file_events at 2.
    rewrite !app_assoc. f_equal. f_equal.
    rewrite <- !app_assoc. reflexivity.
Qed.

Lemma process_files_spec (fs : list UploadedFile) :
  exists ui, process_files fs = Ok (List.concat (List.map data_of fs), ui).
Proof.
  unfold process_files.
  destruct (for_each_files fs [] []) as [ui H]. rewrite H. simpl.
  eexists. reflexivity.
Qed.

Lemma in_page_records (file_name : str) (pg : str * list table)
    (rec : ResultRecord) :
  In rec (page_records file_name pg) ->
  USN rec = usn_of (fst pg) /\ Student_Name rec = name_of (fst pg) /\
  Source_File rec = file_name.
Proof.
  unfold page_records. intros H.
  apply in_flat_map in H. destruct H as [t [_ H]].
  apply in_flat_map in H. destruct H as [r [_ H]].
  unfold row_records in H. destruct (qualifies r); [|contradiction].
  destruct H as [<-|[]]. repeat split.
Qed.

Lemma page_records_length (file_name : str) (text text' : str)
    (tables : list table) :
  List.length (page_records file_name (text, tables)) =
  List.length (page_records file_name (text', tables)).
Proof.
  unfold page_records. simpl. induction tables as [|t ts IH]; simpl.
  - reflexivity.
  - rewrite !length_app, IH. f_equal.
    induction t as [|r t IHt]; simpl; [reflexivity|].
    rewrite !length_app, IHt. f_equal.
    unfold row_records. destruct (qualifies r); reflexivity.
Qed.

Lemma pages_records_length (file_name : str) :
  forall pgs pgs' : list (str * list table),
    List.map snd pgs = List.map snd pgs' ->
    List.length (flat_map (page_records file_name) pgs) =
    List.length (flat_map (page_records file_name) pgs').
Proof.
  induction pgs as [|[t tb] pgs IH]; intros [|[t' tb'] pgs'] H;
    simpl in H; try discriminate; [reflexivity|].
  injection H as -> H. simpl. rewrite !length_app, (IH pgs' H).
  f_equal. apply page_records_length.
Qed.

End Documents.

(* ===================================================================== *)
(** ** Records by position, in order *)
(* ===================================================================== *)

Lemma cell_at_firstn (i : nat) (r : row) :
  i < 6 -> cell_at i (firstn 6 r) = cell_at i r.
Proof.
  intros Hi. unfold cell_at. rewrite nth_firstn.
  destruct (Nat.ltb_spec i 6); [reflexivity | lia].
Qed.

(** Cells beyond index 5 are not looked at. *)
Lemma row_records_firstn (usn name_ file_name : str) (r : row) :
  row_records usn name_ file_name (firstn 6 r) =
  row_records usn name_ file_name r.
Proof.
  unfold row_records, qualifies, record_of.
  rewrite !cell_at_firstn by lia. rewrite length_firstn.
  destruct (Nat.leb_spec 6 (List.length r)) as [H|H].
  - rewrite Nat.min_l by lia. reflexivity.
  - rewrite Nat.min_r by lia.
    destruct (Nat.leb_spec 6 (List.length r)); [lia | reflexivity].
Qed.

(** C3, as the claim states it, fails on a repaired row: the externalMark
    of the record, "40", is not cell 3 (which is empty) but the second token
    of cell 2, and the internalMark "25" is not cell 2 ("25 40"). *)
Lemma repaired_marks_are_not_positional :
  process_row (py "1AB") (py "Asha") (py "a.pdf") [] merged_row =
    Ok [merged_record] /\
  External merged_record = py "40" /\ cell_at 3 merged_row = [] /\
  Internal merged_record = py "25" /\ cell_at 2 merged_row = py "25 40".
Proof. repeat split; vm_compute; reflexivity. Qed.

(** C3, amended: every qualifying row produces exactly one record, which
    carries the identity and the source file it is given; subjectCode,
    subjectName, totalMark and result are the normalized cells 0, 1, 4 and 5,
    and internalMark and externalMark are the normalized cells 2 and 3
    unless the merge repair applies, in which case they are the two tokens
    of cell 2; cells beyond index 5 are ignored.  For a document whose pages
    decode, the output is the concatenation, in page order, of the records of
    each page, which are the concatenation, in table order, of the records
    of the rows of each table in row order, with the identity resolved from
    the text of that page. *)
Theorem records_positional_and_ordered :
  (forall (usn name_ file_name : str) (acc : list ResultRecord) (r : row),
     6 <= List.length r -> code_like (cell_at 0 r) ->
     exists rec,
       process_row usn name_ file_name acc r = Ok (acc ++ [rec]) /\
       process_row usn name_ file_name acc (firstn 6 r) = Ok (acc ++ [rec]) /\
       USN rec = usn /\ Student_Name rec = name_ /\
       Source_File rec = file_name /\
       Subject_Code rec = cell_at 0 r /\ Subject_Name rec = cell_at 1 r /\
       (Internal rec, External rec) = repaired (cell_at 2 r) (cell_at 3 r) /\
       (repairable (cell_at 2 r) (cell_at 3 r) = false ->
        Internal rec = cell_at 2 r /\ External rec = cell_at 3 r) /\
       Total rec = cell_at 4 r /\ Result rec = cell_at 5 r) /\
  (forall (file_name : str) (pgs : list (str * list table)),
     extract_data_from_pdf (document file_name pgs) =
     Ok (flat_map
           (fun pg =>
              flat_map
                (fun t : table =>
                   flat_map
                     (row_records (usn_of (fst pg)) (name_of (fst pg))
                                  file_name) t)
                (snd pg))
           pgs, [])).
Proof.
  split.
  - intros usn name_ file_name acc r Hlen Hcode.
    assert (Hq : qualifies r = true) by (apply qualifies_iff; split; assumption).
    exists (record_of usn name_ file_name r).
    rewrite !process_row_spec, row_records_firstn. unfold row_records.
    rewrite Hq. simpl.
    repeat split; try reflexivity.
    + destruct (repaired (cell_at 2 r) (cell_at 3 r)); reflexivity.
    + unfold repaired. rewrite H. reflexivity.
    + unfold repaired. rewrite H. reflexivity.
  - intros file_name pgs. rewrite extract_data_from_pdf_spec.
    unfold data_of, events_of. rewrite try_body_document. reflexivity.
Qed.

Lemma records_positional_and_ordered_witness :
  exists rec,
    process_row (py "1AB") (py "Asha") (py "a.pdf") [] merged_row =
      Ok ([] ++ [rec]) /\
    process_row (py "1AB") (py "Asha") (py "a.pdf") [] (firstn 6 merged_row) =
      Ok ([] ++ [rec]) /\
    USN rec = py "1AB" /\ Student_Name rec = py "Asha" /\
    Source_File rec = py "a.pdf" /\
    Subject_Code rec = cell_at 0 merged_row /\
    Subject_Name rec = cell_at 1 merged_row /\
    (Internal rec, External rec) =
      repaired (cell_at 2 merged_row) (cell_at 3 merged_row) /\
    (repairable (cell_at 2 merged_row) (cell_at 3 merged_row) = false ->
     Internal rec = cell_at 2 merged_row /\
     External rec = cell_at 3 merged_row) /\
    Total rec = cell_at 4 merged_row /\ Result rec = cell_at 5 merged_row.
Proof.
  apply (proj1 records_positional_and_ordered).
  - vm_compute. lia.
  - exists (py "BMATE201"), []. repeat split. vm_compute. lia.
Defined.

(** Two pages, three tables, four rows: the three result rows come out in
    reading order, and the page without labels has the sentinel identity. *)
Example extract_two_pages :
  extract_data_from_pdf (document (py "a.pdf") [page_one; page_two]) =
  Ok ([ mk "1AB21CS001" "Asha Rao" "BMATE201" "Math" "25" "40" "65" "P" "a.pdf";
        mk "1AB21CS001" "Asha Rao" "BPHYS202" "Physics" "20" "30" "50" "P" "a.pdf";
        mk "Unknown" "Unknown" "BCHES203" "Chemistry" "AB" "AB" "0" "F" "a.pdf" ],
      []).
Proof. vm_compute. reflexivity. Qed.

(* ===================================================================== *)
(** ** Identity is per page *)
(* ===================================================================== *)

Lemma usn_of_unknown (text : str) :
  ~ occurs usn_label text -> usn_of text = py "Unknown".
Proof.
  intros H. unfold usn_of, resolve_usn, usn_pattern.
  rewrite (search_needs_label usn_label _ text H). reflexivity.
Qed.

Lemma name_of_unknown (text : str) :
  ~ occurs name_label text -> name_of text = py "Unknown".
Proof.
  intros H. unfold name_of, resolve_name, name_pattern.
  rewrite (search_needs_label name_label _ text H). reflexivity.
Qed.

(** C8. The records of a page are a function of that page (and of the file
    name) alone: in two documents that have the page [(text, tables)] at the
    same position and the same tables on every other page, whatever the
    texts of the other pages are, the records of the page occupy the same
    positions of the output and are the same records.  Their USN and name
    are those resolved from [text]; when [text] lacks a label the field is
    "Unknown", whatever the other pages contain. *)
Theorem page_identity_independent (file_name : str)
    (pre pre' post post' : list (str * list table))
    (text : str) (tables : list table) :
  List.map snd pre = List.map snd pre' ->
  List.map snd post = List.map snd post' ->
  exists A A' B B',
    extract_data_from_pdf (document file_name (pre ++ (text, tables) :: post))
      = Ok (A ++ page_records file_name (text, tables) ++ B, []) /\
    extract_data_from_pdf (document file_name (pre' ++ (text, tables) :: post'))
      = Ok (A' ++ page_records file_name (text, tables) ++ B', []) /\
    List.length A = List.length A' /\ List.length B = List.length B' /\
    (forall rec, In rec (page_records file_name (text, tables)) ->
                 USN rec = usn_of text /\ Student_Name rec = name_of text) /\
    (~ occurs usn_label text -> usn_of text = py "Unknown") /\
    (~ occurs name_label text -> name_of text = py "Unknown").
Proof.
  intros Hpre Hpost.
  exists (flat_map (page_records file_name) pre),
         (flat_map (page_records file_name) pre'),
         (flat_map (page_records file_name) post),
         (flat_map (page_records file_name) post').
  repeat split.
  - rewrite extract_data_from_pdf_spec. unfold data_of, events_of.
    rewrite try_body_document, flat_map_app. reflexivity.
  - rewrite extract_data_from_pdf_spec. unfold data_of, events_of.
    rewrite try_body_document, flat_map_app. reflexivity.
  - apply pages_records_length. exact Hpre.
  - apply pages_records_length. exact Hpost.
  - apply (in_page_records file_name (text, tables) rec H).
  - apply (in_page_records file_name (text, tables) rec H).
  - apply usn_of_unknown.
  - apply name_of_unknown.
Qed.

(** The second page, after a first page with or without the labels. *)
Lemma page_identity_independent_witness :
  exists A A' B B',
    extract_data_from_pdf
      (document (py "a.pdf") ([page_one] ++ page_two :: []))
      = Ok (A ++ page_records (py "a.pdf") page_two ++ B, []) /\
    extract_data_from_pdf
      (document (py "a.pdf") ([(py "no labels", snd page_one)] ++ page_two :: []))
      = Ok (A' ++ page_records (py "a.pdf") page_two ++ B', []) /\
    List.length A = List.length A' /\ List.length B = List.length B' /\
    (forall rec, In rec (page_records (py "a.pdf") page_two) ->
                 USN rec = usn_of (fst page_two) /\
                 Student_Name rec = name_of (fst page_two)) /\
    (~ occurs usn_label (fst page_two) ->
     usn_of (fst page_two) = py "Unknown") /\
    (~ occurs name_label (fst page_two) ->
     name_of (fst page_two) = py "Unknown").
Proof.
  apply (page_identity_independent (py "a.pdf")
           [page_one] [(py "no labels", snd page_one)] [] []
           (fst page_two) (snd page_two)); reflexivity.
Defined.

(* ===================================================================== *)
(** ** Failures are per document *)
(* ===================================================================== *)

Lemma process_page_fails (file_name : str) (page : Page) (e : exn) :
  page_fails page e ->
  forall acc, process_page file_name acc page = Raise e.
Proof.
  intros [H|[text [Ht Hb]]] acc; unfold process_page.
  - rewrite H. reflexivity.
  - rewrite Ht. simpl. rewrite resolve_usn_ok, resolve_name_ok. simpl.
    rewrite Hb. reflexivity.
Qed.

Lemma try_body_page_fails (file_name : str)
    (pre : list (str * list table)) (bad : Page) (post : list Page) (e : exn) :
  page_fails bad e ->
  try_body {| name := file_name;
              pdfplumber_open := Ok (List.map decoded pre ++ bad :: post) |}
  = Raise e.
Proof.
  intros Hbad. unfold try_body. simpl.
  apply for_each_raise.
  - apply process_page_fails. exact Hbad.
  - intros acc' x Hx. apply in_map_iff in Hx. destruct Hx as [pg [<- _]].
    rewrite process_page_decoded. eexists. reflexivity.
Qed.

(** C6. [extract_data_from_pdf] never raises.  When anything raises inside
    its [try], be it opening the file or decoding a page after other pages
    have already produced records, it returns the empty list (and shows one
    error that names the file).  The upload loop itself never raises, and a
    file that fails does not stop it: the files before and after the failed
    one are all processed, each gets its status line, and the dataset is
    what [extract_data_from_pdf] returned for the files before, followed by
    what it returned for the files after, which is also the dataset of the
    batch without the failed file. *)
Theorem failed_document_contributes_nothing :
  (forall f, exists rs ui, extract_data_from_pdf f = Ok (rs, ui)) /\
  (forall f e, try_body f = Raise e ->
     extract_data_from_pdf f = Ok ([], [St_error (error_message f e)])) /\
  (forall file_name e,
     try_body {| name := file_name; pdfplumber_open := Raise e |} = Raise e) /\
  (forall file_name pre bad post e,
     page_fails bad e ->
     try_body {| name := file_name;
                 pdfplumber_open := Ok (List.map decoded pre ++ bad :: post) |}
     = Raise e) /\
  (forall before f after e,
     try_body f = Raise e ->
     process_files (before ++ f :: after) =
       Ok (List.concat (List.map data_of before) ++
           List.concat (List.map data_of after),
           flat_map file_events before ++
           [ Status_text (py "Processing " ++ name f ++ py "...");
             St_error (error_message f e) ] ++
           flat_map file_events after ++
           [ Status_text (py "Processing Complete!") ]) /\
     process_files (before ++ after) =
       Ok (List.concat (List.map data_of before) ++
           List.concat (List.map data_of after),
           flat_map file_events before ++ flat_map file_events after ++
           [ Status_text (py "Processing Complete!") ])) /\
  (forall fs,
     process_files fs =
     Ok (List.concat (List.map data_of fs),
         flat_map file_events fs ++ [ Status_text (py "Processing Complete!") ])) /\
  (forall g, extract_data_from_pdf g = Ok (data_of g, events_of g)) /\
  (forall g rs, try_body g = Ok rs -> data_of g = rs /\ events_of g = []).
Proof.
  assert (Hloop : forall fs,
            process_files fs =
            Ok (List.concat (List.map data_of fs),
                flat_map file_events fs ++
                [ Status_text (py "Processing Complete!") ])).
  { intros fs. unfold process_files. rewrite for_each_files_log. reflexivity. }
  split; [|split; [|split; [|split; [|split; [|split; [|split]]]]]].
  - intros f. rewrite extract_data_from_pdf_spec. eexists. eexists. reflexivity.
  - intros f e H. rewrite extract_data_from_pdf_spec.
    unfold data_of, events_of. rewrite H. reflexivity.
  - intros file_name e. reflexivity.
  - intros file_name pre bad post e H. apply try_body_page_fails. exact H.
  - intros before f after e H.
    assert (Hd : data_of f = []) by (unfold data_of; rewrite H; reflexivity).
    assert (He : file_events f =
                 [ Status_text (py "Processing " ++ name f ++ py "...");
                   St_error (error_message f e) ]).
    { unfold file_events, events_of. rewrite H. reflexivity. }
    rewrite !Hloop, !map_app, !concat_app, !flat_map_app.
    cbn [List.map List.concat flat_map]. rewrite Hd, He, <- !app_assoc.
    split; reflexivity.
  - exact Hloop.
  - exact extract_data_from_pdf_spec.
  - intros g rs H. unfold data_of, events_of. rewrite H. split; reflexivity.
Qed.

(** A batch of three files, the second of which fails on its second page:
    the two records of the first file and the record of the third reach the
    dataset, in this order, and all three files have their status line. *)
Lemma failed_document_contributes_nothing_witness :
  extract_data_from_pdf broken_file =
    Ok ([], [St_error (py "Error processing b.pdf: bad xref")]) /\
  (process_files ([document (py "a.pdf") [page_one]] ++ broken_file ::
                  [document (py "c.pdf") [page_two]]) =
     Ok (List.concat (List.map data_of [document (py "a.pdf") [page_one]]) ++
         List.concat (List.map data_of [document (py "c.pdf") [page_two]]),
         flat_map file_events [document (py "a.pdf") [page_one]] ++
         [ Status_text (py "Processing " ++ name broken_file ++ py "...");
           St_error (error_message broken_file (DecodeError (py "bad xref"))) ]
         ++ flat_map file_events [document (py "c.pdf") [page_two]] ++
         [ Status_text (py "Processing Complete!") ]) /\
   process_files ([document (py "a.pdf") [page_one]] ++
                  [document (py "c.pdf") [page_two]]) =
     Ok (List.concat (List.map data_of [document (py "a.pdf") [page_one]]) ++
         List.concat (List.map data_of [document (py "c.pdf") [page_two]]),
         flat_map file_events [document (py "a.pdf") [page_one]] ++
         flat_map file_events [document (py "c.pdf") [page_two]] ++
         [ Status_text (py "Processing Complete!") ])) /\
  List.concat (List.map data_of [document (py "a.pdf") [page_one]]) ++
  List.concat (List.map data_of [document (py "c.pdf") [page_two]]) =
  [ mk "1AB21CS001" "Asha Rao" "BMATE201" "Math" "25" "40" "65" "P" "a.pdf";
    mk "1AB21CS001" "Asha Rao" "BPHYS202" "Physics" "20" "30" "50" "P" "a.pdf";
    mk "Unknown" "Unknown" "BCHES203" "Chemistry" "AB" "AB" "0" "F" "c.pdf" ].
Proof.
  assert (H : try_body broken_file = Raise (DecodeError (py "bad xref"))).
  { apply (proj1 (proj2 (proj2 (proj2 failed_document_contributes_nothing)))).
    right. exists (py "Page 2"). split; reflexivity. }
  split; [|split].
  - apply (proj1 (proj2 failed_document_contributes_nothing) broken_file _ H).
  - apply (proj1 (proj2 (proj2 (proj2 (proj2
             failed_document_contributes_nothing)))) _ _ _ _ H).
  - vm_compute. reflexivity.
Defined.

(* ===================================================================== *)
(** ** Aggregation (lines 112-124) *)
(* ===================================================================== *)

(** C7. Aggregating batches with [all_results.extend] is their flat
    concatenation, batch after batch and each batch in its own order:
    nothing is dropped, merged, sorted or moved.  In particular
    [aggregate [[a; b]; [c]] = [a; b; c]], and the dataset of the upload loop
    is the aggregate of what [extract_data_from_pdf] returned for each file,
    in upload order. *)
Theorem aggregate_is_concatenation :
  (forall batches, aggregate batches = List.concat batches) /\
  (forall a b c, aggregate [[a; b]; [c]] = [a; b; c]) /\
  (forall b1 b2, aggregate (b1 ++ b2) = aggregate b1 ++ aggregate b2) /\
  (forall batches,
     List.length (aggregate batches) =
     list_sum (List.map (@List.length ResultRecord) batches)) /\
  (forall fs, exists ui,
     process_files fs = Ok (aggregate (List.map data_of fs), ui)).
Proof.
  assert (H : forall batches, aggregate batches = List.concat batches).
  { intros batches. unfold aggregate. rewrite fold_left_extend. reflexivity. }
  split; [exact H|]. split; [reflexivity|]. split; [|split].
  - intros b1 b2. rewrite !H. apply concat_app.
  - intros batches. rewrite H. induction batches as [|b bs IH]; simpl.
    + reflexivity.
    + rewrite length_app, IH. reflexivity.
  - intros fs. destruct (process_files_spec fs) as [ui Hfs].
    exists ui. rewrite H. exact Hfs.
Qed.

(** Three files, the second of which fails: its error is shown, and the
    dataset is the records of the first and of the third, in that order. *)
Example process_three_files :
  process_files [ document (py "a.pdf") [page_one]; broken_file;
                  document (py "c.pdf") [page_two] ] =
  Ok ([ mk "1AB21CS001" "Asha Rao" "BMATE201" "Math" "25" "40" "65" "P" "a.pdf";
        mk "1AB21CS001" "Asha Rao" "BPHYS202" "Physics" "20" "30" "50" "P" "a.pdf";
        mk "Unknown" "Unknown" "BCHES203" "Chemistry" "AB" "AB" "0" "F" "c.pdf" ],
      [ Status_text (py "Processing a.pdf...");
        Status_text (py "Processing b.pdf...");
        St_error (py "Error processing b.pdf: bad xref");
        Status_text (py "Processing c.pdf...");
        Status_text (py "Processing Complete!") ]).
Proof. vm_compute. reflexivity. Qed.


(* ===================================================================== *)
(** ** More on strings: [strip], [split] and normalized cells *)
(* ===================================================================== *)

Section Normalization.

(** [strip] takes whitespace off both ends and nothing else. *)
Lemma strip_decompose (s : str) :
  exists w1 w2, s = w1 ++ strip s ++ w2 /\ spaces w1 /\ spaces w2.
Proof.
  destruct (lstrip_decompose s) as [w1 [Hs H1]].
  destruct (lstrip_decompose (rev (lstrip s))) as [w [Hr Hw]].
  exists w1, (rev w). unfold strip, rstrip. repeat split.
  - rewrite <- rev_app_distr, <- Hr, rev_involutive. exact Hs.
  - exact H1.
  - unfold spaces, cls_space. rewrite forallb_forall in *.
    intros c Hc. apply Hw. apply in_rev. exact Hc.
Qed.

Lemma strip_incl (s : str) (c : char) : In c (strip s) -> In c s.
Proof.
  destruct (strip_decompose s) as [w1 [w2 [Hs _]]]. intros H.
  rewrite Hs. apply in_or_app. right. apply in_or_app. left. exact H.
Qed.

Lemma replace_no_newline (s : str) : ~ In NEWLINE (replace NEWLINE SPACE s).
Proof.
  unfold replace. intros H. apply in_map_iff in H.
  destruct H as [c [Hc _]].
  destruct (N.eqb_spec c NEWLINE) as [_|Hne]; [discriminate Hc | contradiction].
Qed.

Lemma replace_fixed (s : str) :
  ~ In NEWLINE s -> replace NEWLINE SPACE s = s.
Proof.
  unfold replace. induction s as [|c s IH]; simpl; intros H; [reflexivity|].
  destruct (N.eqb_spec c NEWLINE) as [->|_].
  - exfalso. apply H. left. reflexivity.
  - f_equal. apply IH. intros Hin. apply H. right. exact Hin.
Qed.

Lemma clean_cell_clean (item : cell) : clean_field (clean_cell item).
Proof.
  rewrite clean_cell_spec. destruct item as [s|].
  - split; [apply strip_trimmed|].
    intros H. apply strip_incl in H. exact (replace_no_newline s H).
  - split; [split; intros c t H; destruct t; discriminate H|].
    intros [].
Qed.

(** The tokens of [split]: none is empty, none holds a whitespace. *)
Lemma split_from_tokens (s : str) : forall (cur t : str),
  forallb nonspace cur = true ->
  In t (split_from cur s) -> t <> [] /\ forallb nonspace t = true.
Proof.
  induction s as [|c s IH]; intros cur t Hcur; simpl.
  - destruct cur as [|d cur]; [intros []|].
    intros [<-|[]]. split.
    + intros H. apply (f_equal (@List.length char)) in H.
      rewrite length_rev in H. discriminate H.
    + rewrite forallb_forall in *. intros x Hx. apply Hcur.
      apply in_rev. exact Hx.
  - destruct (Py_UNICODE_ISSPACE c) eqn:Hc.
    + destruct cur as [|d cur]; [apply (IH [] t eq_refl)|].
      intros [<-|H]; [|apply (IH [] t eq_refl H)]. split.
      * intros H. apply (f_equal (@List.length char)) in H.
        rewrite length_rev in H. discriminate H.
      * rewrite forallb_forall in *. intros x Hx. apply Hcur.
        apply in_rev. exact Hx.
    + apply IH. simpl. unfold nonspace at 1. rewrite Hc. exact Hcur.
Qed.

Lemma split_tokens (s t : str) :
  In t (split s) -> t <> [] /\ forallb nonspace t = true.
Proof. apply split_from_tokens. reflexivity. Qed.

(** Joined together, the tokens are the string without its whitespace. *)
Lemma concat_split_from (s : str) : forall cur : str,
  List.concat (split_from cur s) = rev cur ++ filter nonspace s.
Proof.
  induction s as [|c s IH]; intros cur; simpl.
  - destruct cur; simpl; [reflexivity | rewrite !app_nil_r; reflexivity].
  - unfold nonspace at 1. destruct (Py_UNICODE_ISSPACE c); simpl.
    + destruct cur as [|d cur]; simpl; rewrite (IH []); reflexivity.
    + rewrite IH. simpl. rewrite <- app_assoc. reflexivity.
Qed.

Lemma concat_split (s : str) : List.concat (split s) = filter nonspace s.
Proof. apply (concat_split_from s []). Qed.

Lemma filter_nonspace_fixed (t : str) :
  forallb nonspace t = true -> filter nonspace t = t.
Proof.
  induction t as [|c t IH]; simpl; intros H; [reflexivity|].
  apply andb_prop in H. destruct H as [Hc Ht]. rewrite Hc, (IH Ht). reflexivity.
Qed.

Lemma nonspace_clean (t : str) : forallb nonspace t = true -> clean_field t.
Proof.
  intros H. rewrite forallb_forall in H.
  assert (Hn : forall c, In c t -> Py_UNICODE_ISSPACE c = false).
  { intros c Hc. specialize (H c Hc). unfold nonspace in H.
    destruct (Py_UNICODE_ISSPACE c); [discriminate H | reflexivity]. }
  split; [split|].
  - intros c u ->. apply Hn. left. reflexivity.
  - intros c u ->. apply Hn. apply in_or_app. right. left. reflexivity.
  - intros Hin. specialize (Hn NEWLINE Hin). discriminate Hn.
Qed.

End Normalization.

(** X1. Normalization of a cell (line 44) yields a string with no whitespace
    at either end and no newline in it, and it is idempotent: a cell that
    holds an already normalized string is left as it is. *)
Theorem clean_cell_normal_form (item : cell) :
  clean_field (clean_cell item) /\
  clean_cell (Some (clean_cell item)) = clean_cell item.
Proof.
  pose proof (clean_cell_clean item) as [Ht Hn].
  split; [split; assumption|].
  rewrite (clean_cell_spec (Some (clean_cell item))).
  rewrite (replace_fixed _ Hn). apply strip_fixed. exact Ht.
Qed.

(* ===================================================================== *)
(** ** More on the repair of merged marks *)
(* ===================================================================== *)

Lemma repairable_inv (internal external : str) :
  repairable internal external = true ->
  external = [] /\
  exists t0 t1, split internal = [t0; t1] /\
                isdigit t0 = true /\ isdigit t1 = true.
Proof.
  unfold repairable. intros H.
  apply andb_prop in H. destruct H as [H Hs].
  apply andb_prop in H. destruct H as [He _].
  split; [destruct external; [reflexivity | discriminate He]|].
  destruct (split internal) as [|t0 [|t1 [|t2 l]]]; try discriminate Hs.
  apply andb_prop in Hs. exists t0, t1. repeat split; apply Hs.
Qed.

Lemma repaired_fixed_point (internal external : str) :
  repaired (fst (repaired internal external))
           (snd (repaired internal external)) =
  repaired internal external.
Proof.
  unfold repaired at 2 3 4.
  destruct (repairable internal external) eqn:Hr.
  - destruct (repairable_inv _ _ Hr) as [_ [t0 [t1 [Hs [_ H1]]]]].
    rewrite Hs. simpl. unfold repaired, repairable.
    destruct t1; [discriminate H1 | reflexivity].
  - simpl. unfold repaired. rewrite Hr. reflexivity.
Qed.

(** X2. The repair of merged marks (lines 58-63) is idempotent: applied to
    its own result it changes nothing, so a record's marks are never
    repaired twice. *)
Theorem fix_merged_marks_idempotent (internal external : str) :
  (marks <- fix_merged_marks internal external ;;
   fix_merged_marks (fst marks) (snd marks)) =
  fix_merged_marks internal external.
Proof.
  rewrite fix_merged_marks_spec. simpl bind.
  rewrite fix_merged_marks_spec, repaired_fixed_point. reflexivity.
Qed.

(** X3. The repair never raises and never loses or invents a character other
    than whitespace: the two marks it returns, joined, have the same
    non-whitespace characters in the same order as the two cells it was
    given.  Either it returns the cells as they are, or the external cell
    was empty and it returns two non-empty all-digit marks that together
    are the internal cell without its whitespace. *)
Theorem fix_merged_marks_keeps_characters (internal external : str) :
  exists marks,
    fix_merged_marks internal external = Ok marks /\
    filter nonspace (fst marks ++ snd marks) =
    filter nonspace (internal ++ external) /\
    (marks = (internal, external) \/
     (external = [] /\
      isdigit (fst marks) = true /\ isdigit (snd marks) = true /\
      fst marks ++ snd marks = filter nonspace internal)).
Proof.
  exists (repaired internal external).
  split; [apply fix_merged_marks_spec|].
  unfold repaired. destruct (repairable internal external) eqn:Hr.
  - destruct (repairable_inv _ _ Hr) as [-> [t0 [t1 [Hs [H0 H1]]]]].
    rewrite Hs. simpl fst. simpl snd.
    assert (Hcat : t0 ++ t1 = filter nonspace internal).
    { rewrite <- concat_split, Hs. simpl. rewrite app_nil_r. reflexivity. }
    assert (Hf : filter nonspace (t0 ++ t1) = t0 ++ t1).
    { rewrite filter_app.
      rewrite (filter_nonspace_fixed t0), (filter_nonspace_fixed t1);
        [reflexivity | |];
        apply (split_tokens internal); rewrite Hs; simpl; auto. }
    split.
    + rewrite Hf, app_nil_r. exact Hcat.
    + right. repeat split; assumption.
  - split; [reflexivity | left; reflexivity].
Qed.

(* ===================================================================== *)
(** ** What a match of a label pattern looks like *)
(* ===================================================================== *)

Section MatchShape.

Lemma backoff_sound_lo {R} lo k (cont : nat -> option R) r :
  lo <= k -> backoff lo k cont = Some r ->
  exists j, lo <= j /\ j <= k /\ cont j = Some r.
Proof.
  induction k as [|k IH]; simpl; intros Hlo.
  - destruct (cont 0) eqn:H0; [|discriminate].
    intros H. exists 0. repeat split; [lia | lia | congruence].
  - destruct (cont (S k)) eqn:HS.
    + intros H. exists (S k). repeat split; [lia | lia | congruence].
    + destruct (Nat.leb_spec lo k) as [Hk|Hk]; [|discriminate].
      intros H. destruct (IH Hk H) as [j [H1 [H2 H3]]].
      exists j. repeat split; [lia | lia | exact H3].
Qed.

Lemma exec_rep_inv (cap : bool) cls lo hi p pos (s : str) g r :
  exec (Rep cap cls lo hi :: p) pos s g = Some r ->
  exists j, lo <= j /\ j <= span cls hi s /\
            exec p (pos + j) (skipn j s)
                 (if cap then Some (firstn j s) else g) = Some r.
Proof.
  simpl. destruct (Nat.ltb_spec (span cls hi s) lo) as [|Hlo]; [discriminate|].
  apply backoff_sound_lo. exact Hlo.
Qed.

Lemma span_prefix cls (s : str) : forall hi j,
  j <= span cls hi s -> forallb cls (firstn j s) = true.
Proof.
  induction s as [|c s IH]; intros hi j Hj.
  - destruct j; reflexivity.
  - destruct j as [|j]; [reflexivity|].
    destruct hi as [[|h]|]; simpl in Hj; try lia;
      destruct (cls c) eqn:Hc; try lia; simpl; rewrite Hc; simpl.
    + apply (IH (Some h)). simpl. lia.
    + apply (IH None). simpl. lia.
Qed.

Lemma span_bounded cls (s : str) : forall h, span cls (Some h) s <= h.
Proof.
  induction s as [|c s IH]; intros [|h]; simpl; try lia.
  destruct (cls c); [|lia]. specialize (IH h). lia.
Qed.

(** The unbounded span is maximal. *)
Lemma span_maximal cls (s : str) : stops cls (skipn (span cls None s) s).
Proof.
  induction s as [|c s IH]; simpl.
  - apply stops_nil.
  - destruct (cls c) eqn:Hc; [exact IH | apply stops_cons; exact Hc].
Qed.

Lemma firstn_separator (s : str) (j : nat) :
  j <= span cls_sep (Some 1) s -> is_separator (firstn j s).
Proof.
  intros Hj. pose proof (span_bounded cls_sep s 1) as Hb.
  pose proof (span_prefix cls_sep s (Some 1) j Hj) as Hall.
  destruct j as [|[|j]]; [left; reflexivity | | lia].
  destruct s as [|c s]; [left; reflexivity|].
  right. exists c. simpl in Hall. apply andb_prop in Hall.
  split; [reflexivity | apply Hall].
Qed.

Lemma exec_capture cls pos (s : str) g e g' :
  exec [Rep true cls 1 None] pos s g = Some (e, g') ->
  g' = Some (firstn (span cls None s) s) /\ 1 <= span cls None s.
Proof.
  simpl. destruct (Nat.ltb_spec (span cls None s) 1) as [|Hlo]; [discriminate|].
  rewrite (backoff_first 1 (span cls None s) _
             (pos + span cls None s, Some (firstn (span cls None s) s)))
    by reflexivity.
  intros H. injection H as _ <-. split; [reflexivity | exact Hlo].
Qed.

(** Every match of a label pattern is the label, whitespace, at most one
    separator character, whitespace, and the maximal run of the captured
    class, which is group 1. *)
Lemma label_match_inv (label : str) cls pos (s : str) m :
  match_at (lits label ++ separator ++ [Rep true cls 1 None]) pos s = Some m ->
  exists ws1 sep ws2 v rest,
    s = label ++ ws1 ++ sep ++ ws2 ++ v ++ rest /\
    spaces ws1 /\ is_separator sep /\ spaces ws2 /\
    v <> [] /\ forallb cls v = true /\ stops cls rest /\
    group1 m = Some v.
Proof.
  unfold match_at.
  destruct (exec _ pos s None) as [[e g]|] eqn:H; [|discriminate].
  intros Hm. injection Hm as <-. simpl group1.
  destruct (exec_lits_prefix label _ pos s None _ H) as [s1 ->].
  rewrite exec_lits in H. unfold separator in H. simpl app in H.
  apply exec_rep_inv in H. destruct H as [j1 [_ [Hj1 H]]].
  apply exec_rep_inv in H. destruct H as [j2 [_ [Hj2 H]]].
  apply exec_rep_inv in H. destruct H as [j3 [_ [Hj3 H]]].
  apply exec_capture in H. destruct H as [-> Hn].
  set (s2 := skipn j1 s1) in *. set (s3 := skipn j2 s2) in *.
  set (s4 := skipn j3 s3) in *.
  exists (firstn j1 s1), (firstn j2 s2), (firstn j3 s3),
         (firstn (span cls None s4) s4), (skipn (span cls None s4) s4).
  repeat split.
  - rewrite (firstn_skipn (span cls None s4) s4).
    unfold s4. rewrite (firstn_skipn j3 s3).
    unfold s3. rewrite (firstn_skipn j2 s2).
    unfold s2. rewrite (firstn_skipn j1 s1). reflexivity.
  - exact (span_prefix cls_space s1 None j1 Hj1).
  - exact (firstn_separator s2 j2 Hj2).
  - exact (span_prefix cls_space s3 None j3 Hj3).
  - intros Hnil. apply (f_equal (@List.length char)) in Hnil.
    rewrite length_firstn in Hnil. simpl in Hnil.
    pose proof (span_le_length cls None s4). lia.
  - apply span_firstn.
  - apply span_maximal.
Qed.

Lemma label_search_inv (label : str) cls (text : str) m :
  re_search (lits label ++ separator ++ [Rep true cls 1 None]) text = Some m ->
  exists pre ws1 sep ws2 v rest,
    text = pre ++ label ++ ws1 ++ sep ++ ws2 ++ v ++ rest /\
    spaces ws1 /\ is_separator sep /\ spaces ws2 /\
    v <> [] /\ forallb cls v = true /\ stops cls rest /\
    group1 m = Some v.
Proof.
  intros H. destruct (search_from_some _ text 0 m H) as [pre [post [-> Hm]]].
  destruct (label_match_inv label cls _ post m Hm)
    as [ws1 [sep [ws2 [v [rest [-> Hrest]]]]]].
  exists pre, ws1, sep, ws2, v, rest. split; [reflexivity | exact Hrest].
Qed.

End MatchShape.

(* ===================================================================== *)
(** ** What the resolved identity can be *)
(* ===================================================================== *)

(** X4. The resolved USN (lines 29, 32, 35) is either the sentinel
    "Unknown", exactly when the pattern has no match, or a non-empty run of
    characters of [[0-9A-Z]] that stands in the page text right after the
    label phrase, separated from it by whitespace and at most one of the
    characters colon, comma, hyphen, and that is not continued by another
    such character.  Such a run is never the string "Unknown", so the
    sentinel cannot be mistaken for a USN that was read. *)
Theorem usn_is_sentinel_or_labelled_run (text : str) :
  (re_search usn_pattern text = None /\
   resolve_usn text = Ok (py "Unknown")) \/
  (exists pre ws1 sep ws2 v rest,
     text = pre ++ usn_label ++ ws1 ++ sep ++ ws2 ++ v ++ rest /\
     spaces ws1 /\ is_separator sep /\ spaces ws2 /\
     v <> [] /\ forallb cls_upper_digit v = true /\
     stops cls_upper_digit rest /\
     resolve_usn text = Ok v /\ v <> py "Unknown").
Proof.
  unfold resolve_usn. destruct (re_search usn_pattern text) as [m|] eqn:Hs.
  - right.
    destruct (label_search_inv usn_label cls_upper_digit text m Hs)
      as [pre [ws1 [sep [ws2 [v [rest [Ht [H1 [H2 [H3 [H4 [H5 [H6 Hg]]]]]]]]]]]]].
    exists pre, ws1, sep, ws2, v, rest.
    repeat split; try assumption.
    + simpl. rewrite Hg, (strip_fixed v (upper_digit_trimmed v H5)).
      reflexivity.
    + intros ->. discriminate H5.
  - left. split; reflexivity.
Qed.

(** X5. The resolved name (lines 30, 33, 36) never raises and consists of
    letters [[A-Za-z]] and whitespace only.  It is "Unknown" when the
    pattern has no match; otherwise it is the stripped run of letters and
    whitespace that stands in the page text after the label phrase and the
    optional separator (so it is empty when that run is all whitespace). *)
Theorem name_is_letters_and_spaces (text : str) :
  exists n,
    resolve_name text = Ok n /\
    forallb cls_alpha_space n = true /\
    ((re_search name_pattern text = None /\ n = py "Unknown") \/
     (exists pre ws1 sep ws2 v rest,
        text = pre ++ name_label ++ ws1 ++ sep ++ ws2 ++ v ++ rest /\
        spaces ws1 /\ is_separator sep /\ spaces ws2 /\
        v <> [] /\ forallb cls_alpha_space v = true /\
        stops cls_alpha_space rest /\ n = strip v)).
Proof.
  unfold resolve_name. destruct (re_search name_pattern text) as [m|] eqn:Hs.
  - destruct (label_search_inv name_label cls_alpha_space text m Hs)
      as [pre [ws1 [sep [ws2 [v [rest [Ht [H1 [H2 [H3 [H4 [H5 [H6 Hg]]]]]]]]]]]]].
    exists (strip v). simpl. rewrite Hg. split; [reflexivity|]. split.
    + rewrite forallb_forall in *. intros c Hc. apply H5.
      apply strip_incl. exact Hc.
    + right. exists pre, ws1, sep, ws2, v, rest.
      repeat split; assumption.
  - exists (py "Unknown"). split; [reflexivity|]. split; [reflexivity|].
    left. split; reflexivity.
Qed.

(* ===================================================================== *)
(** ** Every file: what is returned, and why *)
(* ===================================================================== *)

Section Files.

Lemma pages_decoded_or_fail (pages : list Page) :
  (exists pgs, pages = List.map decoded pgs) \/
  (exists pre bad post e,
     pages = List.map decoded pre ++ bad :: post /\ page_fails bad e).
Proof.
  induction pages as [|page pages IH].
  - left. exists []. reflexivity.
  - destruct page as [[text|e] tables].
    + destruct tables as [tbs|e].
      * destruct IH as [[pgs ->]|[pre [bad [post [e [-> Hbad]]]]]].
        -- left. exists ((text, tbs) :: pgs). reflexivity.
        -- right. exists ((text, tbs) :: pre), bad, post, e.
           split; [reflexivity | exact Hbad].
      * right. exists [], {| extract_text := Ok text; extract_tables := Raise e |},
                 pages, e.
        split; [reflexivity|]. right. exists text. split; reflexivity.
    + right. exists [], {| extract_text := Raise e; extract_tables := tables |},
               pages, e.
      split; [reflexivity | left; reflexivity].
Qed.

Lemma try_body_cases (f : UploadedFile) :
  (exists pgs,
     pdfplumber_open f = Ok (List.map decoded pgs) /\
     try_body f = Ok (flat_map (page_records (name f)) pgs)) \/
  (exists e,
     (pdfplumber_open f = Raise e \/
      exists pre bad post,
        pdfplumber_open f = Ok (List.map decoded pre ++ bad :: post) /\
        page_fails bad e) /\
     try_body f = Raise e).
Proof.
  destruct f as [file_name [pages|e]].
  - destruct (pages_decoded_or_fail pages)
      as [[pgs ->]|[pre [bad [post [e [-> Hbad]]]]]].
    + left. exists pgs. split; [reflexivity|].
      apply (try_body_document file_name pgs).
    + right. exists e. split.
      * right. exists pre, bad, post. split; [reflexivity | exact Hbad].
      * apply try_body_page_fails. exact Hbad.
  - right. exists e. split; [left; reflexivity | reflexivity].
Qed.

(** Where a record of a file comes from: a qualifying row of one of its
    pages, with the identity of that page. *)
Lemma data_of_provenance (f : UploadedFile) (rec : ResultRecord) :
  In rec (data_of f) ->
  exists (pg : str * list table) (r : row),
    qualifies r = true /\
    rec = record_of (usn_of (fst pg)) (name_of (fst pg)) (name f) r.
Proof.
  unfold data_of.
  destruct (try_body_cases f) as [[pgs [_ ->]]|[e [_ ->]]]; [|intros []].
  intros H. apply in_flat_map in H. destruct H as [pg [_ H]].
  unfold page_records in H.
  apply in_flat_map in H. destruct H as [t [_ H]].
  apply in_flat_map in H. destruct H as [r [_ H]].
  unfold row_records in H. destruct (qualifies r) eqn:Hq; [|contradiction].
  destruct H as [<-|[]]. exists pg, r. split; [exact Hq | reflexivity].
Qed.

Lemma dataset_spec (fs : list UploadedFile) :
  dataset fs = List.concat (List.map data_of fs).
Proof.
  unfold dataset. destruct (process_files_spec fs) as [ui ->]. reflexivity.
Qed.

Lemma dataset_provenance (fs : list UploadedFile) (rec : ResultRecord) :
  In rec (dataset fs) -> exists f, In f fs /\ In rec (data_of f).
Proof.
  rewrite dataset_spec. intros H. apply in_concat in H.
  destruct H as [l [Hl Hrec]]. apply in_map_iff in Hl.
  destruct Hl as [f [<- Hf]]. exists f. split; assumption.
Qed.

End Files.

(** X6. What [extract_data_from_pdf] returns is decided by the decoder
    alone (lines 21-80).  Either the file opens and every page decodes, and
    the result is the records of the pages in page order with no error
    shown; or an exception of the decoder (from opening the file, or from
    the text or the tables of the first page that fails) is the one that is
    reported, with an empty result.  The function's own indexing and group
    access never raise. *)
Theorem extraction_outcome (f : UploadedFile) :
  (exists pgs,
     pdfplumber_open f = Ok (List.map decoded pgs) /\
     extract_data_from_pdf f =
     Ok (flat_map (page_records (name f)) pgs, [])) \/
  (exists e,
     (pdfplumber_open f = Raise e \/
      exists pre bad post,
        pdfplumber_open f = Ok (List.map decoded pre ++ bad :: post) /\
        page_fails bad e) /\
     extract_data_from_pdf f = Ok ([], [St_error (error_message f e)])).
Proof.
  rewrite extract_data_from_pdf_spec. unfold data_of, events_of.
  destruct (try_body_cases f) as [[pgs [Hopen ->]]|[e [Hwhy ->]]].
  - left. exists pgs. split; [exact Hopen | reflexivity].
  - right. exists e. split; [exact Hwhy | reflexivity].
Qed.

(* ===================================================================== *)
(** ** Invariants of the dataset *)
(* ===================================================================== *)

Section DatasetInvariants.

Lemma data_of_not_failed (f : UploadedFile) (rec : ResultRecord) :
  In rec (data_of f) -> fails f = false.
Proof.
  unfold data_of, fails. destruct (try_body f); [reflexivity | intros []].
Qed.

Lemma repaired_clean (internal external : str) :
  clean_field internal -> clean_field external ->
  clean_field (fst (repaired internal external)) /\
  clean_field (snd (repaired internal external)).
Proof.
  intros Hi He. unfold repaired.
  destruct (repairable internal external) eqn:Hr; [|split; assumption].
  destruct (repairable_inv _ _ Hr) as [_ [t0 [t1 [Hs _]]]]. rewrite Hs.
  split; apply nonspace_clean; apply (split_tokens internal);
    rewrite Hs; simpl; auto.
Qed.

Lemma row_records_projection (usn name_ file_name : str) (t : list row) :
  List.map (fun rec => (Subject_Code rec, Subject_Name rec, Total rec, Result rec))
           (flat_map (row_records usn name_ file_name) t) =
  List.map (fun r => (cell_at 0 r, cell_at 1 r, cell_at 4 r, cell_at 5 r))
           (filter qualifies t).
Proof.
  induction t as [|r t IH]; simpl; [reflexivity|].
  rewrite map_app, IH. unfold row_records.
  destruct (qualifies r); reflexivity.
Qed.

Lemma page_records_projection (file_name : str) (pg : str * list table) :
  List.map (fun rec => (Subject_Code rec, Subject_Name rec, Total rec, Result rec))
           (page_records file_name pg) =
  List.map (fun r => (cell_at 0 r, cell_at 1 r, cell_at 4 r, cell_at 5 r))
           (filter qualifies (List.concat (snd pg))).
Proof.
  unfold page_records. induction (snd pg) as [|t ts IH]; simpl; [reflexivity|].
  rewrite map_app, IH, row_records_projection, filter_app, map_app.
  reflexivity.
Qed.

Lemma count_errors_app (a b : list ui_event) :
  count_errors (a ++ b) = count_errors a + count_errors b.
Proof. unfold count_errors. rewrite filter_app, length_app. reflexivity. Qed.

Lemma count_errors_file (f : UploadedFile) :
  count_errors (file_events f) = if fails f then 1 else 0.
Proof.
  unfold file_events, events_of, fails, count_errors.
  destruct (try_body f); reflexivity.
Qed.

End DatasetInvariants.

(** X7. Every record of the dataset built by the upload loop (lines 65-75,
    118-124) names its source: its Source File is the name of one of the
    uploaded files, a file that was processed without error and that has
    this record among its own. *)
Theorem dataset_source_files (fs : list UploadedFile) :
  Forall (fun rec =>
            exists f, In f fs /\ Source_File rec = name f /\
                      fails f = false /\ In rec (data_of f))
         (dataset fs).
Proof.
  apply Forall_forall. intros rec H.
  destruct (dataset_provenance fs rec H) as [f [Hf Hrec]].
  exists f. repeat split; try assumption.
  - destruct (data_of_provenance f rec Hrec) as [pg [r [_ ->]]]. reflexivity.
  - exact (data_of_not_failed f rec Hrec).
Qed.

(** X8. Every record of the dataset has a subject code that starts with at
    least five characters of [[A-Z0-9]] (line 49 lets no other row in): no
    header, spacer or short row ever reaches the dataset, whatever the
    files contain. *)
Theorem dataset_subject_codes (fs : list UploadedFile) :
  Forall (fun rec => code_like (Subject_Code rec) /\
                     5 <= List.length (Subject_Code rec))
         (dataset fs).
Proof.
  apply Forall_forall. intros rec H.
  destruct (dataset_provenance fs rec H) as [f [_ Hrec]].
  destruct (data_of_provenance f rec Hrec) as [pg [r [Hq ->]]]. simpl.
  apply qualifies_iff in Hq. destruct Hq as [_ Hc]. split; [exact Hc|].
  destruct Hc as [run [rest [-> [Hlen _]]]]. rewrite length_app. lia.
Qed.

(** X9. In every record of the dataset the six fields taken from the table
    (subject code and name, internal, external, total, result) have no
    whitespace at either end and no newline inside, repaired or not
    (lines 44, 51-63). *)
Theorem dataset_fields_clean (fs : list UploadedFile) :
  Forall (fun rec =>
            clean_field (Subject_Code rec) /\ clean_field (Subject_Name rec) /\
            clean_field (Internal rec) /\ clean_field (External rec) /\
            clean_field (Total rec) /\ clean_field (Result rec))
         (dataset fs).
Proof.
  apply Forall_forall. intros rec H.
  destruct (dataset_provenance fs rec H) as [f [_ Hrec]].
  destruct (data_of_provenance f rec Hrec) as [pg [r [_ ->]]]. simpl.
  destruct (repaired_clean (cell_at 2 r) (cell_at 3 r)
              (clean_cell_clean _) (clean_cell_clean _)) as [Hi He].
  repeat split; try apply clean_cell_clean; try apply Hi; try apply He.
Qed.

(** X10. For a document whose pages decode, the records are the qualifying
    rows of its tables in reading order and nothing else: subject code,
    subject name, total and result of the records are cells 0, 1, 4 and 5 of
    the rows that pass the test of line 49, row by row (lines 41-75).  So
    there are as many records as qualifying rows, and never more records
    than rows. *)
Theorem records_are_the_qualifying_rows (file_name : str)
    (pgs : list (str * list table)) :
  List.map (fun rec => (Subject_Code rec, Subject_Name rec, Total rec, Result rec))
           (data_of (document file_name pgs)) =
  List.map (fun r => (cell_at 0 r, cell_at 1 r, cell_at 4 r, cell_at 5 r))
           (filter qualifies (all_rows pgs)) /\
  List.length (data_of (document file_name pgs)) =
  List.length (filter qualifies (all_rows pgs)) /\
  List.length (data_of (document file_name pgs)) <= List.length (all_rows pgs).
Proof.
  assert (H : List.map (fun rec => (Subject_Code rec, Subject_Name rec,
                                    Total rec, Result rec))
                       (data_of (document file_name pgs)) =
              List.map (fun r => (cell_at 0 r, cell_at 1 r, cell_at 4 r,
                                  cell_at 5 r))
                       (filter qualifies (all_rows pgs))).
  { unfold data_of, all_rows. rewrite try_body_document.
    induction pgs as [|pg pgs IH]; simpl; [reflexivity|].
    rewrite map_app, IH, page_records_projection, concat_app, filter_app,
      map_app. reflexivity. }
  split; [exact H|].
  apply (f_equal (@List.length _)) in H. rewrite !length_map in H.
  split; [exact H|]. rewrite H. apply filter_length_le.
Qed.

(** X11. The upload loop (lines 118-129) never raises, and what it shows is
    fixed by the files: for each file in upload order its status line
    "Processing <name>...", followed by its error if and only if the file
    fails, and "Processing Complete!" at the end.  The number of errors
    shown is the number of files that fail. *)
Theorem upload_log (fs : list UploadedFile) :
  process_files fs =
  Ok (List.concat (List.map data_of fs),
      flat_map file_events fs ++ [Status_text (py "Processing Complete!")]) /\
  count_errors (flat_map file_events fs ++
                [Status_text (py "Processing Complete!")]) =
  List.length (filter fails fs).
Proof.
  split.
  - unfold process_files. rewrite for_each_files_log. reflexivity.
  - rewrite count_errors_app. change (count_errors [_]) with 0.
    rewrite Nat.add_0_r.
    induction fs as [|f fs IH]; [reflexivity|].
    change (flat_map file_events (f :: fs))
      with (file_events f ++ flat_map file_events fs).
    rewrite count_errors_app, count_errors_file, IH. simpl filter.
    destruct (fails f); reflexivity.
Qed.

(** X12. Uploading the same files in another order gives the same records,
    each as many times, in another order: the dataset of a permutation of
    the files is a permutation of the dataset (lines 118-124). *)
Theorem dataset_permutation (fs fs' : list UploadedFile) :
  Permutation fs fs' -> Permutation (dataset fs) (dataset fs').
Proof.
  intros H. rewrite !dataset_spec.
  induction H as [|f l l' _ IH|f g l|l l' l'' _ IH1 _ IH2]; simpl.
  - apply Permutation_refl.
  - apply Permutation_app_head. exact IH.
  - rewrite !app_assoc. apply Permutation_app_tail. apply Permutation_app_comm.
  - exact (Permutation_trans IH1 IH2).
Qed.

Lemma dataset_permutation_witness :
  Permutation
    (dataset [document (py "a.pdf") [page_one]; broken_file;
              document (py "c.pdf") [page_two]])
    (dataset [broken_file; document (py "c.pdf") [page_two];
              document (py "a.pdf") [page_one]]).
Proof.
  apply dataset_permutation.
  apply (Permutation_cons_append
           [broken_file; document (py "c.pdf") [page_two]]
           (document (py "a.pdf") [page_one])).
Defined.

(* ===================================================================== *)
(** ** The report (lines 82-91, 110-111, 129-149) *)
(* ===================================================================== *)

Section ReportFacts.

Variable excel_writer : DataFrame -> bool -> str -> written.

Lemma dataset_nil_iff (fs : list UploadedFile) :
  dataset fs = [] <-> Forall (fun f => data_of f = []) fs.
Proof.
  rewrite dataset_spec. induction fs as [|f fs IH]; simpl.
  - split; [constructor | reflexivity].
  - split.
    + intros H. apply app_eq_nil in H. destruct H as [Hf Hfs].
      constructor; [exact Hf | apply IH; exact Hfs].
    + intros H. inversion H as [|? ? Hf Hfs]. subst.
      rewrite Hf. apply IH. exact Hfs.
Qed.

Lemma dataset_length (fs : list UploadedFile) :
  List.length (dataset fs) =
  list_sum (List.map (fun f => List.length (data_of f)) fs).
Proof.
  rewrite dataset_spec. induction fs as [|f fs IH]; simpl; [reflexivity|].
  rewrite length_app, IH. reflexivity.
Qed.

Lemma handle_upload_clicked (f : UploadedFile) (fs : list UploadedFile) :
  handle_upload excel_writer (f :: fs) true =
  (flat_map file_events (f :: fs)
     ++ [Status_text (py "Processing Complete!")],
   St_button (py "Process " ++ str_of_nat (S (List.length fs)) ++ py " Files")
     :: fst (report excel_writer (dataset (f :: fs))),
   snd (report excel_writer (dataset (f :: fs)))).
Proof.
  unfold handle_upload, dataset, process_files.
  rewrite for_each_files_log. reflexivity.
Qed.

End ReportFacts.

(** X13. After a click on a non-empty upload (lines 110-149) the loop is run
    and the button and the report are shown; how the handler ends is how the
    report ends.  When no file contributes a record (each one failed or had
    no qualifying row) the report is the warning alone and the handler
    returns.  Otherwise the success message, with the number of records
    (the sum over the files of the records each one returned), and the
    preview are shown, and the table of all records is written without the
    index to the sheet "Results": if that gives bytes, the download button
    with these bytes is shown and the handler returns; if it raises, nothing
    catches the exception, which leaves the handler after the success
    message and the preview, with no download button. *)
Theorem upload_report (excel_writer : DataFrame -> bool -> str -> written)
    (f : UploadedFile) (fs : list UploadedFile) :
  handle_upload excel_writer (f :: fs) true =
  (flat_map file_events (f :: fs) ++ [Status_text (py "Processing Complete!")],
   St_button (py "Process " ++ str_of_nat (S (List.length fs)) ++ py " Files")
     :: fst (report excel_writer (dataset (f :: fs))),
   snd (report excel_writer (dataset (f :: fs)))) /\
  (Forall (fun g => data_of g = []) (f :: fs) <->
   fst (report excel_writer (dataset (f :: fs))) =
   [ St_warning (py "No result data found in the uploaded PDFs. Please check if the format matches.") ]) /\
  (Forall (fun g => data_of g = []) (f :: fs) ->
   snd (report excel_writer (dataset (f :: fs))) = Returns) /\
  (~ Forall (fun g => data_of g = []) (f :: fs) ->
   forall excel_data,
     excel_writer (pd_DataFrame (dataset (f :: fs))) false (py "Results") =
     Bytes excel_data ->
     report excel_writer (dataset (f :: fs)) =
     ([ St_success
          (py "Successfully extracted " ++
           str_of_nat
             (list_sum (List.map (fun g => List.length (data_of g)) (f :: fs)))
           ++ py " rows of data!");
        St_expander ([128065; 65039]%N ++ py " Preview Extracted Data") true
          (pd_DataFrame (dataset (f :: fs)));
        St_download_button ([128229]%N ++ py " Download Excel File")
          excel_data
          (py "VTU_Bulk_Results.xlsx")
          (py "application/vnd.openxmlformats-officedocument.spreadsheetml.sheet") ],
      Returns)) /\
  (~ Forall (fun g => data_of g = []) (f :: fs) ->
   forall exception,
     excel_writer (pd_DataFrame (dataset (f :: fs))) false (py "Results") =
     Refused exception ->
     report excel_writer (dataset (f :: fs)) =
     ([ St_success
          (py "Successfully extracted " ++
           str_of_nat
             (list_sum (List.map (fun g => List.length (data_of g)) (f :: fs)))
           ++ py " rows of data!");
        St_expander ([128065; 65039]%N ++ py " Preview Extracted Data") true
          (pd_DataFrame (dataset (f :: fs))) ],
      Uncaught exception)).
Proof.
  split; [apply handle_upload_clicked|].
  rewrite <- dataset_nil_iff, <- dataset_length.
  destruct (dataset (f :: fs)) as [|rec rs] eqn:Hd.
  - split; [split; reflexivity|]. split; [reflexivity|].
    split; intros Hne; contradiction.
  - split; [|split; [|split]].
    + split; [discriminate|]. unfold report, to_excel.
      destruct (excel_writer _ false _); discriminate.
    + discriminate.
    + intros _ excel_data Hw. unfold report, to_excel. rewrite Hw.
      unfold len, pd_DataFrame. cbn [values]. rewrite length_map. reflexivity.
    + intros _ exception Hw. unfold report, to_excel. rewrite Hw.
      unfold len, pd_DataFrame. cbn [values]. rewrite length_map. reflexivity.
Qed.

(** The three-file batch, clicked: the log of the loop, then the button,
    the success message for three records, the preview and the download.
    With the control character in one cell the writer refuses: the handler
    ends with the exception, after the success message and the preview. *)
Lemma upload_report_witness :
  (exists df,
     handle_upload strict_writer
       [ document (py "a.pdf") [page_one]; broken_file;
         document (py "c.pdf") [page_two] ] true =
     ([ Status_text (py "Processing a.pdf...");
        Status_text (py "Processing b.pdf...");
        St_error (py "Error processing b.pdf: bad xref");
        Status_text (py "Processing c.pdf...");
        Status_text (py "Processing Complete!") ],
      [ St_button (py "Process 3 Files");
        St_success (py "Successfully extracted 3 rows of data!");
        St_expander ([128065; 65039]%N ++ py " Preview Extracted Data") true df;
        St_download_button ([128229]%N ++ py " Download Excel File")
          [0; 0; 0]%N
          (py "VTU_Bulk_Results.xlsx")
          (py "application/vnd.openxmlformats-officedocument.spreadsheetml.sheet") ],
      Returns) /\
     len df = 3) /\
  report strict_writer (dataset [document (py "d.pdf") [control_page]]) =
  ([ St_success
       (py "Successfully extracted " ++
        str_of_nat
          (list_sum (List.map (fun g => List.length (data_of g))
                       [document (py "d.pdf") [control_page]]))
        ++ py " rows of data!");
     St_expander ([128065; 65039]%N ++ py " Preview Extracted Data") true
       (pd_DataFrame (dataset [document (py "d.pdf") [control_page]])) ],
   Uncaught (py "IllegalCharacterError")).
Proof.
  split.
  - eexists. split; vm_compute; reflexivity.
  - apply (proj2 (proj2 (proj2 (proj2
             (upload_report strict_writer
                (document (py "d.pdf") [control_page]) []))))).
    + intros H. inversion H as [|? ? Hd _]. vm_compute in Hd. discriminate Hd.
    + vm_compute. reflexivity.
Defined.

(* ===================================================================== *)
(** ** The page loop only appends *)
(* ===================================================================== *)

(** X15. Processing a page (lines 24-75) only appends to [extracted_data]:
    whatever was extracted before is kept as it is, in front, and what the
    page adds does not depend on it; and the page raises with records
    already extracted exactly when it raises without. *)
Theorem process_page_appends (file_name : str)
    (extracted_data : list ResultRecord) (page : Page) :
  process_page file_name extracted_data page =
  (added <- process_page file_name [] page ;; Ok (extracted_data ++ added)).
Proof.
  destruct (pages_decoded_or_fail [page])
    as [[pgs H]|[pre [bad [post [e [H Hbad]]]]]].
  - destruct pgs as [|pg [|pg' pgs]]; try discriminate H.
    injection H as ->. rewrite !process_page_decoded. reflexivity.
  - destruct pre as [|pg pre].
    + injection H as <- _.
      rewrite !(process_page_fails file_name page e Hbad). reflexivity.
    + destruct pre; discriminate H.
Qed.
